(** * The stdio-to-HTTP bridge [mcp-stdio-proxy.py], embedded and verified

    The script reads newline-delimited requests from standard input, forwards
    each one by HTTP POST, remembers the session identifier the server hands
    out, and prints either the server's reply or a synthesized JSON-RPC error.

    The embedding is shallow.  Python values are Rocq values ([str] is a list
    of Unicode code points, a dict is a finite map or an association list),
    the module-level script is the function [main], and its observable
    behaviour is a trace of events (lines read, requests sent, results
    received, text printed, log lines appended) together with the way the
    process ends.  Library calls whose code is not part of the script
    ([json.loads], [int], [session.post], string formatting of a value) are
    fields of a [runtime] record over which every definition is
    parameterised.

    Text is modelled where the script handles it: a line is the [str] that
    [readline()] returns, a response body is [response.text].  Printing a
    response can fail when standard output cannot encode it, and does so as
    in the script.  Printing an error reply (ASCII, as [json.dumps] makes
    it), reading a line and writing to the log file are taken not to fail;
    the time stamp of a log line is left open. *)

From Stdlib Require Import ZArith NArith List String Ascii Strings.Byte Bool Lia.
From stdpp Require Import base option list strings gmap pretty.
Import ListNotations.

Local Open Scope Z_scope.
Local Set Warnings "-register-all,-clear-no-such-hyp".

(** ** Python text *)

(** A Python [str]: a sequence of Unicode code points. *)
Definition str : Type := list N.

(** A Python [bytes] object. *)
Definition bytes : Type := list byte.

(** A string literal of the source (ASCII only). *)
Definition py (s : string) : str :=
  map N_of_ascii (list_ascii_of_string s).

(** The same, with every apostrophe read as a double quote, so that JSON
    text can be written down as a literal. *)
Definition pyq (s : string) : str :=
  map (fun c => if (c =? 39)%N then 34%N else c) (py s).

(** [bool(s)] for a string: the empty string is false. *)
Definition truthy (s : str) : bool :=
  match s with [] => false | _ :: _ => true end.

(** [bool(x)] for a value that is a string or [None]. *)
Definition truthy_opt (o : option str) : bool :=
  match o with None => false | Some s => truthy s end.

(** [c.isspace()]: the code points CPython's [str.strip()] removes. *)
Definition isspace (c : N) : bool :=
  ((9 <=? c) && (c <=? 13) || (28 <=? c) && (c <=? 32)
   || (c =? 133) || (c =? 160) || (c =? 5760)
   || (8192 <=? c) && (c <=? 8202)
   || (c =? 8232) || (c =? 8233) || (c =? 8239) || (c =? 8287)
   || (c =? 12288))%N.

Fixpoint lstrip (s : str) : str :=
  match s with
  | [] => []
  | c :: r => if isspace c then lstrip r else s
  end.

Definition rstrip (s : str) : str := rev (lstrip (rev s)).

(** [s.strip()] *)
Definition strip (s : str) : str := rstrip (lstrip s).

(** A text made of whitespace only. *)
Definition blank (s : str) : Prop := Forall (fun c => isspace c = true) s.

(** [s.lower()] on the ASCII letters.  The only use is the test of the debug
    flag against three ASCII words, and no code point outside ASCII
    lower-cases to a letter of those words. *)
Definition lower (s : str) : str :=
  map (fun c => if ((65 <=? c) && (c <=? 90))%N then (c + 32)%N else c) s.

(** [s[:n]] *)
Definition slice_to (n : nat) (s : str) : str := take n s.

(** An integer inside an f-string. *)
Definition fmt_Z (z : Z) : str := py (pretty z).
Definition fmt_len (s : str) : str := py (pretty (length s)).

(** [needle in hay] for strings. *)
Fixpoint is_prefix (p s : str) : bool :=
  match p, s with
  | [], _ => true
  | _ :: _, [] => false
  | a :: p', b :: s' => (a =? b)%N && is_prefix p' s'
  end.

Fixpoint contains (needle hay : str) : bool :=
  is_prefix needle hay
  || match hay with [] => false | _ :: hay' => contains needle hay' end.

(** *** UTF-8 *)

Definition mkbyte (n : N) : byte := byte_of_ascii (ascii_of_N n).

(** One code point; [None] is [UnicodeEncodeError] (a lone surrogate). *)
Definition utf8_char (c : N) : option bytes :=
  (if c <? 128 then Some [mkbyte c]
   else if c <? 2048 then
     Some [mkbyte (N.lor 192 (N.shiftr c 6));
           mkbyte (N.lor 128 (N.land c 63))]
   else if c <? 65536 then
     if (55296 <=? c) && (c <=? 57343) then None
     else Some [mkbyte (N.lor 224 (N.shiftr c 12));
                mkbyte (N.lor 128 (N.land (N.shiftr c 6) 63));
                mkbyte (N.lor 128 (N.land c 63))]
   else if c <? 1114112 then
     Some [mkbyte (N.lor 240 (N.shiftr c 18));
           mkbyte (N.lor 128 (N.land (N.shiftr c 12) 63));
           mkbyte (N.lor 128 (N.land (N.shiftr c 6) 63));
           mkbyte (N.lor 128 (N.land c 63))]
   else None)%N.

(** [s.encode('utf-8')] *)
Fixpoint encode_utf8 (s : str) : option bytes :=
  match s with
  | [] => Some []
  | c :: r =>
      match utf8_char c, encode_utf8 r with
      | Some b, Some br => Some (b ++ br)
      | _, _ => None
      end
  end.

(** ** Python values decoded from JSON *)

Inductive json : Type :=
| JNull
| JBool (b : bool)
| JInt (z : Z)
| JFloat (literal : str)
| JStr (s : str)
| JArr (items : list json)
| JObj (members : list (str * json)).

(** Lookup in a dict kept as an association list with distinct keys. *)
Fixpoint dict_get (d : list (str * json)) (k : str) : option json :=
  match d with
  | [] => None
  | (k', v) :: d' => if bool_decide (k' = k) then Some v else dict_get d' k
  end.

(** The dict every error reply of the script is built from:
    [{"jsonrpc": "2.0", "id": id, "error": {"code": code, "message": msg}}] *)
Definition error_reply (id : json) (code : Z) (msg : str) : json :=
  JObj [ (py "jsonrpc", JStr (py "2.0"));
         (py "id", id);
         (py "error", JObj [ (py "code", JInt code);
                             (py "message", JStr msg) ]) ].

(** ** Exceptions *)

Inductive exc_class : Type :=
| ValueError
| JSONDecodeError
| RecursionError
| AttributeError
| UnicodeEncodeError
| Timeout
| ConnectTimeout
| ReadTimeout
| ConnectionError
| ProxyError
| SSLError
| OtherException (name : string).

(** An exception instance: its class and [str(e)]. *)
Record exception : Type := Exc { exc_cls : exc_class; exc_str : str }.

(** [isinstance(e, requests.exceptions.Timeout)] *)
Definition is_Timeout (c : exc_class) : bool :=
  match c with Timeout | ConnectTimeout | ReadTimeout => true | _ => false end.

(** [isinstance(e, requests.exceptions.ConnectionError)] *)
Definition is_ConnectionError (c : exc_class) : bool :=
  match c with
  | ConnectionError | ConnectTimeout | ProxyError | SSLError => true
  | _ => false
  end.

(** [isinstance(e, json.JSONDecodeError)] *)
Definition is_JSONDecodeError (c : exc_class) : bool :=
  match c with JSONDecodeError => true | _ => false end.

(** ** The HTTP exchange *)

(** The arguments of one [session.post(MCP_URL, data=..., headers=...,
    timeout=...)] call.  [sess_headers] are the defaults the script installs
    on the session once, before the loop. *)
Record request : Type := Request {
  req_url : str;
  req_data : bytes;
  req_headers : gmap string str;
  req_timeout : Z;
  sess_headers : gmap string str
}.

(** What the script consumes of a [requests.Response]. *)
Record response : Type := Response {
  status_code : Z;
  resp_headers : gmap string str;
  resp_text : str
}.

Inductive post_result : Type :=
| Responds (r : response)
| Raises (e : exception).

Inductive loads_result : Type :=
| Loaded (v : json)
| LoadsRaises (c : exc_class).

(** ** What the script does not define itself

    [World] is the state of everything behind the HTTP endpoint;
    [session_post] is one blocking call.  The other fields are the Python
    built-ins and library functions the script calls. *)
Record runtime (World : Type) : Type := Runtime {
  session_post : World -> request -> post_result * World;
  json_loads : str -> loads_result;
  py_int : str -> option Z;             (* [int(s)]; [None] is ValueError *)
  py_format : json -> str;              (* a decoded value inside an f-string *)
  encode_error_str : str -> str;        (* [str(e)] of a UnicodeEncodeError *)
  stdout_encode : str -> option bytes;  (* a text in the encoding of
                                           [sys.stdout]; [None] is
                                           UnicodeEncodeError *)
  stdout_error_str : str -> str         (* [str(e)] of that error *)
}.

Arguments session_post {World} _ _ _.
Arguments json_loads {World} _ _.
Arguments py_int {World} _ _.
Arguments py_format {World} _ _.
Arguments encode_error_str {World} _ _.
Arguments stdout_encode {World} _ _.
Arguments stdout_error_str {World} _ _.

(** ** Observable behaviour *)

(** What [print(..., flush=True)] is given: the dict handed to [json.dumps],
    or a text printed as it is. *)
Inductive printed : Type :=
| Dumps (v : json)
| Text (s : str).

Inductive event : Type :=
| ReadLine (line : str)        (* [sys.stdin.readline()] returned [line] *)
| LogWrite (msg : str)         (* a line [[<now>] msg] appended to LOG_FILE *)
| HttpPost (r : request)       (* [session.post] is called *)
| HttpResult (res : post_result) (* ... and returns or raises *)
| Print (p : printed).         (* a [print] call that wrote its line *)

(** How the process ends: [sys.exit(code)] or falling off the end of the
    script (status 0), or an exception nobody catches (a traceback on
    standard error and status 1). *)
Inductive exit_status : Type :=
| Exit (code : Z)
| Traceback (c : exc_class).

(** [LOG_FILE = "/tmp/mcp-proxy.log"] *)
Definition LOG_FILE : str := py "/tmp/mcp-proxy.log".

(** The line [log] appends to [LOG_FILE] for [msg] when the clock reads
    [now]: [f"[{now}] {msg}\n"]. *)
Definition log_line (now msg : str) : str :=
  py "[" ++ now ++ py "] " ++ msg ++ [10%N].

(** ** Configuration *)

(** [os.environ] is a finite map from variable names to values,
    [gmap string str]. *)

(** The module-level constants once the credential check has passed. *)
Record config : Type := Config {
  API_KEY : str;
  HOST : str;
  PORT : str;
  TIMEOUT : Z;
  DEBUG : bool
}.

(** [MCP_URL = f"http://{HOST}:{PORT}/mcp/{API_KEY}"] *)
Definition MCP_URL (cfg : config) : str :=
  py "http://" ++ HOST cfg ++ py ":" ++ PORT cfg ++ py "/mcp/" ++ API_KEY cfg.

(** [os.environ.get("MCP_DEBUG", "").lower() in ("1", "true", "yes")] *)
Definition debug_enabled (env : gmap string str) : bool :=
  bool_decide (lower (default [] (env !! "MCP_DEBUG"))
               ∈ [py "1"; py "true"; py "yes"]).

(** [session.headers.update({...})] *)
Definition session_headers : gmap string str :=
  {[ "Content-Type" := py "application/json";
     "Accept" := py "application/json" ]}.

(** ** What a call's outcome makes the script print *)

(** The message of the error reply for a failed call. *)
Definition failure_message (e : exception) : str :=
  if is_Timeout (exc_cls e) then py "Request timed out"
  else if is_ConnectionError (exc_cls e) then
    py "Connection error: Is the WhatsApp MCP server running?"
  else exc_str e.

(** What [handle_response] prints, by status and body. *)
Definition response_output {World : Type} (rt : runtime World) (id : json)
    (r : response) : list printed :=
  if 400 <=? status_code r then
    [Dumps (error_reply id (-32000)
              (py "HTTP " ++ fmt_Z (status_code r) ++ py ": " ++ resp_text r))]
  else if truthy (resp_text r) then
    match stdout_encode rt (resp_text r) with
    | Some _ => [Text (resp_text r)]
    | None =>
        [Dumps (error_reply id (-32000) (stdout_error_str rt (resp_text r)))]
    end
  else [].

(** The bytes a completed [print(text)] puts on standard output: the text
    in the encoding of standard output, then a newline. *)
Definition printed_bytes {World : Type} (rt : runtime World) (text : str)
  : option bytes :=
  match stdout_encode rt text with
  | Some b => Some (b ++ [mkbyte 10])
  | None => None
  end.

(** [str(content, "iso-8859-1", errors="replace")]: what [response.text]
    is for a body whose Content-Type declares [charset=iso-8859-1]. *)
Definition decode_latin_1 (content : bytes) : str :=
  map (fun b => N_of_ascii (ascii_of_byte b)) content.

(** ** The script *)

(** How one pass through the body of [while True] ends. *)
Inductive control : Type :=
| Continue                     (* back to the top of the loop *)
| Break                        (* [break]: end of input *)
| Propagate (c : exc_class).   (* an exception leaves the loop *)

Section Bridge.

Context {World : Type} (rt : runtime World).

(** [log(msg)]: writes only when [DEBUG] is set. *)
Definition log (cfg : config) (msg : str) : list event :=
  if DEBUG cfg then [LogWrite msg] else [].

(** Lines 76-81: the request id used in error replies.

    [json.loads] raising [JSONDecodeError] leaves the id at [None]; any other
    exception it raises is not caught here.  On a decoded value that is not a
    dict, [req_json.get] raises [AttributeError], which is not caught
    either. *)
Definition extract_request_id (line : str) : json + exc_class :=
  match json_loads rt line with
  | LoadsRaises c => if is_JSONDecodeError c then inl JNull else inr c
  | Loaded (JObj d) => inl (default JNull (dict_get d (py "id")))
  | Loaded _ => inr AttributeError
  end.

(** Lines 85-88: the per-call headers. *)
Definition call_headers (mcp_session_id : option str) : gmap string str :=
  match mcp_session_id with
  | Some sid => if truthy sid then {[ "Mcp-Session-Id" := sid ]} else ∅
  | None => ∅
  end.

Definition log_session (cfg : config) (mcp_session_id : option str)
  : list event :=
  match mcp_session_id with
  | Some sid =>
      if truthy sid then log cfg (py "Using session: " ++ sid) else []
  | None => []
  end.

(** Lines 132-155: the three [except] clauses, tried in this order. *)
Definition handle_exception (cfg : config) (request_id : json)
    (e : exception) : list event :=
  if is_Timeout (exc_cls e) then
    log cfg (py "Request timed out")
    ++ [Print (Dumps (error_reply request_id (-32000)
                        (py "Request timed out")))]
  else if is_ConnectionError (exc_cls e) then
    log cfg (py "Connection error: " ++ exc_str e)
    ++ [Print (Dumps (error_reply request_id (-32000)
                        (py "Connection error: Is the WhatsApp MCP server running?")))]
  else
    log cfg (py "Exception: " ++ exc_str e)
    ++ [Print (Dumps (error_reply request_id (-32000) (exc_str e)))].

(** Lines 98-130: the rest of the [try] block once [session.post] has
    returned.  Gives the events and the session id held afterwards.

    [print(response_text)] is inside the [try] statement: when standard
    output cannot encode the text it raises [UnicodeEncodeError], nothing is
    written, and the last [except] clause takes over.  The session id
    assigned before stays assigned. *)
Definition handle_response (cfg : config) (request_id : json)
    (mcp_session_id : option str) (r : response)
  : list event * option str :=
  let ev1 := log cfg (py "Got response: " ++ fmt_Z (status_code r)) in
  let '(ev2, sid') :=
    match resp_headers r !! "Mcp-Session-Id" with
    | Some v => (log cfg (py "New session ID: " ++ v), Some v)
    | None => ([], mcp_session_id)
    end in
  let response_text := resp_text r in
  let ev3 :=
    log cfg (py "Response (" ++ fmt_len response_text ++ py " chars): "
             ++ (if truthy response_text then slice_to 200 response_text
                 else py "EMPTY")
             ++ py "...") in
  if 400 <=? status_code r then
    (ev1 ++ ev2 ++ ev3
     ++ log cfg (py "HTTP ERROR " ++ fmt_Z (status_code r) ++ py ": "
                 ++ response_text)
     ++ [Print (Dumps (error_reply request_id (-32000)
                         (py "HTTP " ++ fmt_Z (status_code r) ++ py ": "
                          ++ response_text)))]
     ++ log cfg (py "Error response written to stdout"),
     sid')
  else if negb (truthy response_text) then
    (ev1 ++ ev2 ++ ev3
     ++ log cfg (py "Skipped empty response (notification ack)"),
     sid')
  else
    match stdout_encode rt response_text with
    | Some _ =>
        (ev1 ++ ev2 ++ ev3
         ++ [Print (Text response_text)]
         ++ log cfg (py "Response written to stdout"),
         sid')
    | None =>
        (ev1 ++ ev2 ++ ev3
         ++ handle_exception cfg request_id
              (Exc UnicodeEncodeError (stdout_error_str rt response_text)),
         sid')
    end.

(** What follows the call inside the [try] statement: the rest of the block
    when it returned, the matching [except] clause when it raised (the held
    session id is then left as it was). *)
Definition handle_result (cfg : config) (request_id : json)
    (mcp_session_id : option str) (res : post_result)
  : list event * option str :=
  match res with
  | Responds r => handle_response cfg request_id mcp_session_id r
  | Raises e => (handle_exception cfg request_id e, mcp_session_id)
  end.

(** The request the script builds for [line]. *)
Definition build_request (cfg : config) (mcp_session_id : option str)
    (body : bytes) : request :=
  Request (MCP_URL cfg) body (call_headers mcp_session_id) (TIMEOUT cfg)
          session_headers.

(** Lines 90-155: the [try] statement.  The argument
    [line.encode('utf-8')] is evaluated inside it, so a failure to encode is
    handled by the last clause. *)
Definition forward (cfg : config) (request_id : json)
    (mcp_session_id : option str) (line : str) (w : World)
  : list event * option str * World :=
  let ev0 := log cfg (py "Sending HTTP request...") in
  match encode_utf8 line with
  | None =>
      (ev0 ++ handle_exception cfg request_id
                (Exc UnicodeEncodeError (encode_error_str rt line)),
       mcp_session_id, w)
  | Some body =>
      let rq := build_request cfg mcp_session_id body in
      let '(res, w') := session_post rt w rq in
      let '(ev, sid') := handle_result cfg request_id mcp_session_id res in
      (ev0 ++ [HttpPost rq; HttpResult res] ++ ev, sid', w')
  end.

(** Lines 62-155: one pass through the loop body, [raw] being what
    [sys.stdin.readline()] returns. *)
Definition iteration (cfg : config) (mcp_session_id : option str)
    (raw : str) (w : World)
  : list event * option str * World * control :=
  let ev0 :=
    log cfg (py "Waiting for input...")
    ++ [ReadLine raw]
    ++ log cfg (py "Got line: "
                ++ (if truthy raw then fmt_len raw else fmt_Z 0)
                ++ py " chars") in
  if negb (truthy raw) then
    (ev0 ++ log cfg (py "EOF received, exiting"), mcp_session_id, w, Break)
  else
    let line := strip raw in
    if negb (truthy line) then
      (ev0 ++ log cfg (py "Empty line, continuing"),
       mcp_session_id, w, Continue)
    else
      match extract_request_id line with
      | inr c => (ev0, mcp_session_id, w, Propagate c)
      | inl request_id =>
          let ev1 :=
            log cfg (py "Request (id=" ++ py_format rt request_id ++ py "): "
                     ++ slice_to 200 line ++ py "...") in
          let ev2 := log_session cfg mcp_session_id in
          let '(ev3, sid', w') :=
            forward cfg request_id mcp_session_id line w in
          (ev0 ++ ev1 ++ ev2 ++ ev3, sid', w', Continue)
      end.

(** Lines 61-157: the loop and the last statement of the script.  [stdin]
    lists what the successive [readline()] calls return before the end of
    the input; at the end of the input [readline()] returns the empty
    string. *)
Fixpoint bridge_loop (cfg : config) (mcp_session_id : option str)
    (stdin : list str) (w : World) : list event * exit_status :=
  match stdin with
  | [] =>
      let '(ev, _, _, _) := iteration cfg mcp_session_id [] w in
      (ev ++ log cfg (py "=== Proxy exiting ==="), Exit 0)
  | raw :: rest =>
      let '(ev, sid', w', ctl) := iteration cfg mcp_session_id raw w in
      match ctl with
      | Continue =>
          let '(evs, st) := bridge_loop cfg sid' rest w' in (ev ++ evs, st)
      | Break => (ev ++ log cfg (py "=== Proxy exiting ==="), Exit 0)
      | Propagate c => (ev, Traceback c)
      end
  end.

(** Lines 27-37: the reply printed when the credential is missing. *)
Definition missing_key_reply : json :=
  error_reply JNull (-32600)
    (py "MCP_API_KEY environment variable is required").

(** Lines 50-51: the two log lines written before the loop; the URL is
    logged with the credential masked. *)
Definition startup_log (cfg : config) : list event :=
  log cfg (py "=== Proxy started ===")
  ++ log cfg (py "URL: http://" ++ HOST cfg ++ py ":" ++ PORT cfg
              ++ py "/mcp/***").

(** Lines 21-59 and the loop: the whole script, run in environment [env]
    with [stdin] on standard input. *)
Definition main (env : gmap string str) (stdin : list str) (w : World)
  : list event * exit_status :=
  let api_key := env !! "MCP_API_KEY" in
  let host := default (py "localhost") (env !! "MCP_HOST") in
  let port := default (py "8080") (env !! "MCP_PORT") in
  match py_int rt (default (py "30") (env !! "MCP_TIMEOUT")) with
  | None => ([], Traceback ValueError)
  | Some timeout =>
      let debug := debug_enabled env in
      match api_key with
      | Some key =>
          if truthy key then
            let cfg := Config key host port timeout debug in
            let '(evs, st) := bridge_loop cfg None stdin w in
            (startup_log cfg ++ evs, st)
          else ([Print (Dumps missing_key_reply)], Exit 1)
      | None => ([Print (Dumps missing_key_reply)], Exit 1)
      end
  end.

(** Everything an iteration that reaches the call does before it: log
    lines and the read. *)
Definition prelude (cfg : config) (mcp_session_id : option str)
    (raw : str) (request_id : json) : list event :=
  (log cfg (py "Waiting for input...")
   ++ [ReadLine raw]
   ++ log cfg (py "Got line: "
               ++ (if truthy raw then fmt_len raw else fmt_Z 0)
               ++ py " chars"))
  ++ log cfg (py "Request (id=" ++ py_format rt request_id ++ py "): "
              ++ slice_to 200 (strip raw) ++ py "...")
  ++ log_session cfg mcp_session_id
  ++ log cfg (py "Sending HTTP request...").

(** The four components of what [iteration] returns. *)
Definition iter_events (x : list event * option str * World * control)
  : list event := x.1.1.1.
Definition iter_session (x : list event * option str * World * control)
  : option str := x.1.1.2.
Definition iter_world (x : list event * option str * World * control)
  : World := x.1.2.
Definition iter_control (x : list event * option str * World * control)
  : control := x.2.

(** What an iteration prints, read off the cases of its body. *)
Definition iteration_output (cfg : config) (mcp_session_id : option str)
    (raw : str) (w : World) : list printed :=
  if truthy (strip raw) then
    match extract_request_id (strip raw) with
    | inr _ => []
    | inl id =>
        match encode_utf8 (strip raw) with
        | None =>
            [Dumps (error_reply id (-32000)
                      (encode_error_str rt (strip raw)))]
        | Some body =>
            match (session_post rt w
                     (build_request cfg mcp_session_id body)).1 with
            | Responds r => response_output rt id r
            | Raises e =>
                [Dumps (error_reply id (-32000) (failure_message e))]
            end
        end
    end
  else [].

(** The loop goes on after the iteration on [raw]: what it does on
    [raw :: rest] is that iteration followed by the loop on [rest], started
    from the session id and the world the iteration leaves. *)
Definition proceeds_to_next (cfg : config) (mcp_session_id : option str)
    (raw : str) (rest : list str) (w : World) : Prop :=
  let it := iteration cfg mcp_session_id raw w in
  bridge_loop cfg mcp_session_id (raw :: rest) w
  = (iter_events it
     ++ (bridge_loop cfg (iter_session it) rest (iter_world it)).1,
     (bridge_loop cfg (iter_session it) rest (iter_world it)).2).

End Bridge.

(** ** Reading a trace *)

(** The requests sent, in order. *)
Fixpoint posts (tr : list event) : list request :=
  match tr with
  | [] => []
  | HttpPost rq :: tr' => rq :: posts tr'
  | _ :: tr' => posts tr'
  end.

(** What was printed on standard output, in order. *)
Fixpoint prints (tr : list event) : list printed :=
  match tr with
  | [] => []
  | Print p :: tr' => p :: prints tr'
  | _ :: tr' => prints tr'
  end.

(** The messages appended to the log file, in order. *)
Fixpoint log_writes (tr : list event) : list str :=
  match tr with
  | [] => []
  | LogWrite m :: tr' => m :: log_writes tr'
  | _ :: tr' => log_writes tr'
  end.

(** The lines obtained from standard input, in order. *)
Fixpoint reads (tr : list event) : list str :=
  match tr with
  | [] => []
  | ReadLine l :: tr' => l :: reads tr'
  | _ :: tr' => reads tr'
  end.

(** The results of the calls, in order (used to recognise the iteration in
    which a given answer arrived). *)
Fixpoint results (tr : list event) : list post_result :=
  match tr with
  | [] => []
  | HttpResult res :: tr' => res :: results tr'
  | _ :: tr' => results tr'
  end.

(** The session token as the specification describes it: unset at first,
    overwritten by every response that carries the header, whatever its
    status. *)
Definition token_after (held : option str) (e : event) : option str :=
  match e with
  | HttpResult (Responds r) =>
      match resp_headers r !! "Mcp-Session-Id" with
      | Some v => Some v
      | None => held
      end
  | _ => held
  end.

Definition held_token (held : option str) (tr : list event) : option str :=
  fold_left token_after tr held.

(** The header discipline as the specification words it: every request
    carries exactly the token held when it is sent, and none while no token
    is held. *)
Fixpoint attaches_held_token (held : option str) (tr : list event) : Prop :=
  match tr with
  | [] => True
  | e :: tr' =>
      match e with
      | HttpPost rq => req_headers rq !! "Mcp-Session-Id" = held
      | _ => True
      end
      /\ attaches_held_token (token_after held e) tr'
  end.

(** The same discipline with the test the script makes: the header is
    attached when the held token is a non-empty string. *)
Fixpoint attaches_nonempty_token (held : option str) (tr : list event)
  : Prop :=
  match tr with
  | [] => True
  | e :: tr' =>
      match e with
      | HttpPost rq =>
          req_headers rq !! "Mcp-Session-Id"
          = (if truthy_opt held then held else None)
      | _ => True
      end
      /\ attaches_nonempty_token (token_after held e) tr'
  end.

(** ** A concrete runtime

    An executable instance of [runtime], used to run the script on concrete
    inputs.  [loads] is a JSON reader for the grammar [json.loads] accepts
    (without its limits on nesting depth and on the length of integer
    literals); [int] reads an optionally signed run of ASCII digits
    surrounded by whitespace; [format] renders [None], booleans, integers
    and strings as an f-string does, a float by its literal, and abbreviates
    lists and dicts.  The world is a script of answers, one
    per request, each a function of the request; when the script has run out
    the endpoint refuses the connection. *)
Module Demo.

Definition is_ws (c : N) : bool :=
  ((c =? 32) || (c =? 9) || (c =? 10) || (c =? 13))%N.

Fixpoint skip_ws (s : str) : str :=
  match s with
  | c :: r => if is_ws c then skip_ws r else s
  | [] => []
  end.

Definition is_digit (c : N) : bool := ((48 <=? c) && (c <=? 57))%N.

Fixpoint take_digits (s : str) : str * str :=
  match s with
  | c :: r =>
      if is_digit c then let '(ds, r') := take_digits r in (c :: ds, r')
      else ([], s)
  | [] => ([], [])
  end.

Definition digits_value (ds : str) : Z :=
  fold_left (fun acc c => 10 * acc + (Z.of_N c - 48)) ds 0.

(** A number: an optional minus sign, then 0 or a run of digits that does
    not start with 0, then optionally a dot and digits, then optionally an
    exponent.  Without fraction and exponent it is an [int]. *)
Definition read_number (s : str) : option (json * str) :=
  let '(sign, s1) :=
    match s with 45%N :: r => ([45%N], r) | _ => ([], s) end in
  let '(int_part, s2) :=
    match s1 with
    | 48%N :: r => ([48%N], r)
    | _ => take_digits s1
    end in
  match int_part with
  | [] => None
  | _ :: _ =>
      let '(frac, s3) :=
        match s2 with
        | 46%N :: r =>
            match take_digits r with
            | ([], _) => ([], s2)
            | (ds, r') => (46%N :: ds, r')
            end
        | _ => ([], s2)
        end in
      let '(expo, s4) :=
        match s3 with
        | e :: r =>
            if ((e =? 101) || (e =? 69))%N then
              let '(sg, r1) :=
                match r with
                | c :: r' =>
                    if ((c =? 43) || (c =? 45))%N then ([c], r') else ([], r)
                | [] => ([], r)
                end in
              match take_digits r1 with
              | ([], _) => ([], s3)
              | (ds, r') => (e :: sg ++ ds, r')
              end
            else ([], s3)
        | [] => ([], s3)
        end in
      match frac, expo with
      | [], [] =>
          let v := digits_value int_part in
          Some (JInt (match sign with [] => v | _ => - v end), s4)
      | _, _ => Some (JFloat (sign ++ int_part ++ frac ++ expo), s4)
      end
  end.

Definition hex_value (c : N) : option N :=
  (if (48 <=? c) && (c <=? 57) then Some (c - 48)
   else if (97 <=? c) && (c <=? 102) then Some (c - 87)
   else if (65 <=? c) && (c <=? 70) then Some (c - 55)
   else None)%N.

Definition read_hex4 (s : str) : option (N * str) :=
  match s with
  | a :: b :: c :: d :: r =>
      match hex_value a, hex_value b, hex_value c, hex_value d with
      | Some x, Some y, Some z, Some t =>
          Some (4096 * x + 256 * y + 16 * z + t, r)%N
      | _, _, _, _ => None
      end
  | _ => None
  end.

(** The characters of a string literal after its opening quote. *)
Fixpoint read_string (fuel : nat) (s : str) : option (str * str) :=
  match fuel with
  | O => None
  | S fuel' =>
      match s with
      | [] => None
      | 34%N :: r => Some ([], r)
      | 92%N :: 117%N :: r =>
          match read_hex4 r with
          | None => None
          | Some (hi, r1) =>
              let pair :=
                if ((55296 <=? hi) && (hi <=? 56319))%N then
                  match r1 with
                  | 92%N :: 117%N :: r2 =>
                      match read_hex4 r2 with
                      | Some (lo, r3) =>
                          if ((56320 <=? lo) && (lo <=? 57343))%N then
                            Some (65536 + 1024 * (hi - 55296) + (lo - 56320),
                                  r3)%N
                          else None
                      | None => None
                      end
                  | _ => None
                  end
                else None in
              let '(c, r') := default (hi, r1) pair in
              match read_string fuel' r' with
              | Some (cs, rest) => Some (c :: cs, rest)
              | None => None
              end
          end
      | 92%N :: e :: r =>
          let unescaped :=
            (if e =? 34 then Some 34
             else if e =? 92 then Some 92
             else if e =? 47 then Some 47
             else if e =? 98 then Some 8
             else if e =? 102 then Some 12
             else if e =? 110 then Some 10
             else if e =? 114 then Some 13
             else if e =? 116 then Some 9
             else None)%N in
          match unescaped, read_string fuel' r with
          | Some c, Some (cs, rest) => Some (c :: cs, rest)
          | _, _ => None
          end
      | c :: r =>
          if (c <? 32)%N then None
          else
            match read_string fuel' r with
            | Some (cs, rest) => Some (c :: cs, rest)
            | None => None
            end
      end
  end.

(** A later member with the same key replaces the value of the earlier
    one, as assignment into a dict does. *)
Fixpoint dict_set (d : list (str * json)) (k : str) (v : json)
  : list (str * json) :=
  match d with
  | [] => [(k, v)]
  | (k', v') :: d' =>
      if bool_decide (k' = k) then (k, v) :: d' else (k', v') :: dict_set d' k v
  end.

Inductive mode : Type :=
| AValue
| Items (acc : list json)
| Members (acc : list (str * json)).

Fixpoint read (fuel : nat) (m : mode) (s : str) : option (json * str) :=
  match fuel with
  | O => None
  | S fuel' =>
      match m with
      | AValue =>
          match s with
          | 34%N :: r =>
              match read_string (S (length r)) r with
              | Some (t, r') => Some (JStr t, r')
              | None => None
              end
          | 91%N :: r =>
              match skip_ws r with
              | 93%N :: r' => Some (JArr [], r')
              | r' => read fuel' (Items []) r'
              end
          | 123%N :: r =>
              match skip_ws r with
              | 125%N :: r' => Some (JObj [], r')
              | r' => read fuel' (Members []) r'
              end
          | _ =>
              if is_prefix (py "null") s then Some (JNull, drop 4 s)
              else if is_prefix (py "true") s then Some (JBool true, drop 4 s)
              else if is_prefix (py "false") s then
                Some (JBool false, drop 5 s)
              else if is_prefix (py "NaN") s then
                Some (JFloat (py "NaN"), drop 3 s)
              else if is_prefix (py "Infinity") s then
                Some (JFloat (py "Infinity"), drop 8 s)
              else if is_prefix (py "-Infinity") s then
                Some (JFloat (py "-Infinity"), drop 9 s)
              else read_number s
          end
      | Items acc =>
          match read fuel' AValue s with
          | Some (v, r) =>
              match skip_ws r with
              | 44%N :: r' => read fuel' (Items (acc ++ [v])) (skip_ws r')
              | 93%N :: r' => Some (JArr (acc ++ [v]), r')
              | _ => None
              end
          | None => None
          end
      | Members acc =>
          match s with
          | 34%N :: r =>
              match read_string (S (length r)) r with
              | Some (k, r1) =>
                  match skip_ws r1 with
                  | 58%N :: r2 =>
                      match read fuel' AValue (skip_ws r2) with
                      | Some (v, r3) =>
                          match skip_ws r3 with
                          | 44%N :: r4 =>
                              read fuel' (Members (dict_set acc k v))
                                   (skip_ws r4)
                          | 125%N :: r4 => Some (JObj (dict_set acc k v), r4)
                          | _ => None
                          end
                      | None => None
                      end
                  | _ => None
                  end
              | None => None
              end
          | _ => None
          end
      end
  end.

Definition loads (s : str) : loads_result :=
  match read (2 * length s + 2) AValue (skip_ws s) with
  | Some (v, r) =>
      match skip_ws r with
      | [] => Loaded v
      | _ :: _ => LoadsRaises JSONDecodeError
      end
  | None => LoadsRaises JSONDecodeError
  end.

Definition int (s : str) : option Z :=
  let t := strip s in
  let '(neg, t1) :=
    match t with
    | 45%N :: r => (true, r)
    | 43%N :: r => (false, r)
    | _ => (false, t)
    end in
  match take_digits t1 with
  | ((_ :: _) as ds, []) =>
      Some (if neg : bool then - digits_value ds else digits_value ds)
  | _ => None
  end.

Definition format (v : json) : str :=
  match v with
  | JNull => py "None"
  | JBool true => py "True"
  | JBool false => py "False"
  | JInt z => fmt_Z z
  | JFloat l => l
  | JStr t => t
  | JArr _ => py "[...]"
  | JObj _ => py "{...}"
  end.

Definition encode_error (s : str) : str :=
  py "'utf-8' codec can't encode characters: surrogates not allowed".

(** One scripted answer per request. *)
Definition world : Type := list (request -> post_result).

(** [requests] reports a refused connection with the path of the URL in
    the description. *)
Definition refused (rq : request) : post_result :=
  Raises (Exc ConnectionError
            (py "HTTPConnectionPool(host='localhost', port=8080): "
             ++ py "Max retries exceeded with url: "
             ++ drop 21 (req_url rq)
             ++ py " (Caused by NewConnectionError: "
             ++ py "[Errno 111] Connection refused)")).

Definition post (w : world) (rq : request) : post_result * world :=
  match w with
  | [] => (refused rq, [])
  | answer :: w' => (answer rq, w')
  end.

(** Standard output in UTF-8. *)
Definition print_error (s : str) : str :=
  py "'utf-8' codec can't encode characters: surrogates not allowed".

Definition rt : runtime world :=
  Runtime world post loads int format encode_error encode_utf8 print_error.

(** Standard output in ASCII (as under [PYTHONIOENCODING=ascii]). *)
Fixpoint encode_ascii (s : str) : option bytes :=
  match s with
  | [] => Some []
  | c :: r =>
      if (c <? 128)%N then
        match encode_ascii r with
        | Some br => Some (mkbyte c :: br)
        | None => None
        end
      else None
  end.

Definition ascii_error (s : str) : str :=
  py "'ascii' codec can't encode characters: ordinal not in range(128)".

Definition rt_ascii_stdout : runtime world :=
  Runtime world post loads int format encode_error encode_ascii ascii_error.

(** [json.loads] as CPython 3.11 and later has it by default: converting an
    integer literal of more than 4300 digits raises [ValueError], which is
    not a [JSONDecodeError].  (Stated on texts that are valid JSON.) *)
Fixpoint has_huge_int (v : json) : bool :=
  match v with
  | JInt z => 10 ^ 4300 <=? Z.abs z
  | JArr items => existsb has_huge_int items
  | JObj members => existsb (fun kv => has_huge_int kv.2) members
  | _ => false
  end.

Definition loads_limited (s : str) : loads_result :=
  match loads s with
  | Loaded v => if has_huge_int v then LoadsRaises ValueError else Loaded v
  | LoadsRaises c => LoadsRaises c
  end.

Definition rt_limited : runtime world :=
  Runtime world post loads_limited int format encode_error encode_utf8
          print_error.

(** Answers used below. *)
Definition ok (body : str) (rq : request) : post_result :=
  Responds (Response 200 ∅ body).

Definition ok_with_session (sid body : str) (rq : request) : post_result :=
  Responds (Response 200 {[ "Mcp-Session-Id" := sid ]} body).

Definition failing (status : Z) (body : str) (rq : request) : post_result :=
  Responds (Response status ∅ body).

Definition times_out (rq : request) : post_result :=
  Raises (Exc ReadTimeout (py "Read timed out. (read timeout=30)")).

Definition env_with_key : gmap string str :=
  {[ "MCP_API_KEY" := py "s3cret" ]}.

Definition cfg : config :=
  Config (py "s3cret") (py "localhost") (py "8080") 30 false.

Definition env_with_debug : gmap string str :=
  {[ "MCP_API_KEY" := py "s3cret"; "MCP_DEBUG" := py "1" ]}.

Definition cfg_debug : config :=
  Config (py "s3cret") (py "localhost") (py "8080") 30 true.

End Demo.

(** ** Notions used by the further properties *)

(** A surrogate code point, which UTF-8 cannot encode. *)
Definition is_surrogate (c : N) : bool := ((55296 <=? c) && (c <=? 57343))%N.

(** The configuration with the credential replaced by [k]. *)
Definition with_key (k : str) (cfg : config) : config :=
  Config k (HOST cfg) (PORT cfg) (TIMEOUT cfg) (DEBUG cfg).

(** A request sent to another URL. *)
Definition set_url (u : str) (rq : request) : request :=
  Request u (req_data rq) (req_headers rq) (req_timeout rq) (sess_headers rq).

(** Two outcomes of a call that the script cannot tell apart in what it
    prints and keeps: the same response, or two exceptions that lead to the
    same message in the error reply (two timeouts, two connection errors
    that are not timeouts, or two other exceptions with one description). *)
Definition same_outcome (a b : post_result) : Prop :=
  match a, b with
  | Responds r1, Responds r2 => r1 = r2
  | Raises e1, Raises e2 => failure_message e1 = failure_message e2
  | _, _ => False
  end.

(** Answers that do not look at the URL of the request. *)
Definition url_blind_answers (w : list (request -> post_result)) : Prop :=
  Forall (fun answer => forall rq u, answer (set_url u rq) = answer rq) w.

(** The body the script sends for the line [raw], if it sends one: none for
    a blank line and none for a text that cannot be encoded. *)
Definition forwarded_body (raw : str) : option bytes :=
  if truthy (strip raw) then encode_utf8 (strip raw) else None.

(** * Properties *)

(** ** Reading traces piecewise *)

Lemma posts_app (a b : list event) : posts (a ++ b) = posts a ++ posts b.
Proof. induction a as [|[] a IH]; simpl; congruence. Qed.

Lemma prints_app (a b : list event) : prints (a ++ b) = prints a ++ prints b.
Proof. induction a as [|[] a IH]; simpl; congruence. Qed.

Lemma log_writes_app (a b : list event) :
  log_writes (a ++ b) = log_writes a ++ log_writes b.
Proof. induction a as [|[] a IH]; simpl; congruence. Qed.

Lemma reads_app (a b : list event) : reads (a ++ b) = reads a ++ reads b.
Proof. induction a as [|[] a IH]; simpl; congruence. Qed.

Lemma elem_of_posts (tr : list event) (rq : request) :
  HttpPost rq ∈ tr <-> rq ∈ posts tr.
Proof.
  induction tr as [|e tr IH]; simpl.
  - rewrite !elem_of_nil; tauto.
  - destruct e; rewrite ?elem_of_cons, IH; naive_solver.
Qed.

Lemma elem_of_prints (tr : list event) (p : printed) :
  Print p ∈ tr <-> p ∈ prints tr.
Proof.
  induction tr as [|e tr IH]; simpl.
  - rewrite !elem_of_nil; tauto.
  - destruct e; rewrite ?elem_of_cons, IH; naive_solver.
Qed.

Lemma elem_of_log_writes (tr : list event) (m : str) :
  LogWrite m ∈ tr <-> m ∈ log_writes tr.
Proof.
  induction tr as [|e tr IH]; simpl.
  - rewrite !elem_of_nil; tauto.
  - destruct e; rewrite ?elem_of_cons, IH; naive_solver.
Qed.

Lemma results_app (a b : list event) :
  results (a ++ b) = results a ++ results b.
Proof. induction a as [|[] a IH]; simpl; congruence. Qed.

Lemma elem_of_results (tr : list event) (res : post_result) :
  HttpResult res ∈ tr <-> res ∈ results tr.
Proof.
  induction tr as [|e tr IH]; simpl.
  - rewrite !elem_of_nil; tauto.
  - destruct e; rewrite ?elem_of_cons, IH; naive_solver.
Qed.

Lemma posts_log cfg m : posts (log cfg m) = [].
Proof. unfold log; destruct (DEBUG cfg); reflexivity. Qed.

Lemma prints_log cfg m : prints (log cfg m) = [].
Proof. unfold log; destruct (DEBUG cfg); reflexivity. Qed.

Lemma results_log cfg m : results (log cfg m) = [].
Proof. unfold log; destruct (DEBUG cfg); reflexivity. Qed.

Lemma reads_log cfg m : reads (log cfg m) = [].
Proof. unfold log; destruct (DEBUG cfg); reflexivity. Qed.

Lemma posts_log_session cfg sid : posts (log_session cfg sid) = [].
Proof.
  unfold log_session; destruct sid as [t|]; [destruct (truthy t)|];
    auto using posts_log.
Qed.

Lemma prints_log_session cfg sid : prints (log_session cfg sid) = [].
Proof.
  unfold log_session; destruct sid as [t|]; [destruct (truthy t)|];
    auto using prints_log.
Qed.

Lemma results_log_session cfg sid : results (log_session cfg sid) = [].
Proof.
  unfold log_session; destruct sid as [t|]; [destruct (truthy t)|];
    auto using results_log.
Qed.

Lemma reads_log_session cfg sid : reads (log_session cfg sid) = [].
Proof.
  unfold log_session; destruct sid as [t|]; [destruct (truthy t)|];
    auto using reads_log.
Qed.

Create Rewrite HintDb trace.

#[local] Hint Rewrite posts_app prints_app results_app reads_app
  posts_log prints_log results_log reads_log
  posts_log_session prints_log_session results_log_session
  reads_log_session app_nil_r : trace.

Ltac trace_simpl := repeat (autorewrite with trace; simpl).

(** ** What the handlers print *)

Lemma prints_handle_exception cfg id e :
  prints (handle_exception cfg id e)
  = [Dumps (error_reply id (-32000) (failure_message e))].
Proof.
  unfold handle_exception, failure_message.
  destruct (is_Timeout _); [|destruct (is_ConnectionError _)];
    trace_simpl; reflexivity.
Qed.

Lemma posts_handle_exception cfg id e : posts (handle_exception cfg id e) = [].
Proof.
  unfold handle_exception.
  destruct (is_Timeout _); [|destruct (is_ConnectionError _)];
    trace_simpl; reflexivity.
Qed.

Lemma results_handle_exception cfg id e :
  results (handle_exception cfg id e) = [].
Proof.
  unfold handle_exception.
  destruct (is_Timeout _); [|destruct (is_ConnectionError _)];
    trace_simpl; reflexivity.
Qed.

Lemma reads_handle_exception cfg id e : reads (handle_exception cfg id e) = [].
Proof.
  unfold handle_exception.
  destruct (is_Timeout _); [|destruct (is_ConnectionError _)];
    trace_simpl; reflexivity.
Qed.

Section Handlers.

Context {World : Type} (rt : runtime World).

Lemma handle_response_session cfg id sid r :
  (handle_response rt cfg id sid r).2
  = token_after sid (HttpResult (Responds r)).
Proof.
  unfold handle_response; simpl.
  destruct (resp_headers r !! "Mcp-Session-Id");
    destruct (400 <=? status_code r); try reflexivity;
    destruct (truthy (resp_text r)); try reflexivity;
    destruct (stdout_encode rt (resp_text r)); reflexivity.
Qed.

(** Case analysis on the body of [handle_response]. *)
Ltac response_cases r :=
  unfold handle_response, response_output;
  destruct (resp_headers r !! "Mcp-Session-Id");
  destruct (400 <=? status_code r);
  try (destruct (truthy (resp_text r)); cbn [negb];
       try destruct (stdout_encode rt (resp_text r))).

Lemma prints_handle_response cfg id sid r :
  prints (handle_response rt cfg id sid r).1 = response_output rt id r.
Proof.
  response_cases r; trace_simpl; rewrite ?prints_handle_exception;
    reflexivity.
Qed.

Lemma posts_handle_response cfg id sid r :
  posts (handle_response rt cfg id sid r).1 = [].
Proof.
  response_cases r; trace_simpl; rewrite ?posts_handle_exception;
    reflexivity.
Qed.

Lemma results_handle_response cfg id sid r :
  results (handle_response rt cfg id sid r).1 = [].
Proof.
  response_cases r; trace_simpl; rewrite ?results_handle_exception;
    reflexivity.
Qed.

Lemma reads_handle_response cfg id sid r :
  reads (handle_response rt cfg id sid r).1 = [].
Proof.
  response_cases r; trace_simpl; rewrite ?reads_handle_exception;
    reflexivity.
Qed.

End Handlers.

(** ** One iteration *)

Section Iteration.

Context {World : Type} (rt : runtime World).

Lemma truthy_strip raw : truthy (strip raw) = true -> truthy raw = true.
Proof. destruct raw; [discriminate | reflexivity]. Qed.

Lemma prints_prelude cfg sid raw id : prints (prelude rt cfg sid raw id) = [].
Proof. unfold prelude; trace_simpl; reflexivity. Qed.

Lemma posts_prelude cfg sid raw id : posts (prelude rt cfg sid raw id) = [].
Proof. unfold prelude; trace_simpl; reflexivity. Qed.

Lemma results_prelude cfg sid raw id :
  results (prelude rt cfg sid raw id) = [].
Proof. unfold prelude; trace_simpl; reflexivity. Qed.

Lemma reads_prelude cfg sid raw id :
  reads (prelude rt cfg sid raw id) = [raw].
Proof. unfold prelude; trace_simpl; reflexivity. Qed.

(** An iteration whose line is not blank, whose id extraction does not
    raise and whose text can be encoded makes exactly one call and goes
    back to the top of the loop. *)
Lemma iteration_forwarded cfg sid raw w id body :
  truthy (strip raw) = true ->
  extract_request_id rt (strip raw) = inl id ->
  encode_utf8 (strip raw) = Some body ->
  iteration rt cfg sid raw w
  = (prelude rt cfg sid raw id
     ++ [HttpPost (build_request cfg sid body);
         HttpResult (session_post rt w (build_request cfg sid body)).1]
     ++ (handle_result rt cfg id sid
           (session_post rt w (build_request cfg sid body)).1).1,
     (handle_result rt cfg id sid
        (session_post rt w (build_request cfg sid body)).1).2,
     (session_post rt w (build_request cfg sid body)).2,
     Continue).
Proof.
  intros Hline Hid Henc.
  unfold iteration, forward, prelude.
  rewrite (truthy_strip _ Hline), Hline, Hid, Henc; simpl.
  destruct (session_post rt w (build_request cfg sid body)) as [res w'].
  simpl. destruct (handle_result rt cfg id sid res) as [ev sid']. simpl.
  rewrite <- !app_assoc. reflexivity.
Qed.

(** An iteration in which a call returned or raised is of that kind. *)
Lemma iteration_result_inv cfg sid raw w res :
  HttpResult res ∈ iter_events (iteration rt cfg sid raw w) ->
  exists id body,
    truthy (strip raw) = true
    /\ extract_request_id rt (strip raw) = inl id
    /\ encode_utf8 (strip raw) = Some body
    /\ (session_post rt w (build_request cfg sid body)).1 = res.
Proof.
  rewrite elem_of_results.
  destruct (truthy (strip raw)) eqn:Hline.
  - destruct (extract_request_id rt (strip raw)) as [id|c] eqn:Hid.
    + destruct (encode_utf8 (strip raw)) as [body|] eqn:Henc.
      * rewrite (iteration_forwarded cfg sid raw w id body Hline Hid Henc).
        unfold iter_events; simpl. rewrite results_app, results_prelude.
        simpl. intros Hin. exists id, body. repeat split; auto.
        apply elem_of_cons in Hin as [->|Hin]; [reflexivity|].
        exfalso. revert Hin.
        destruct ((session_post rt w (build_request cfg sid body)).1);
          simpl; rewrite ?results_handle_response,
                   ?results_handle_exception, elem_of_nil; tauto.
      * unfold iteration, forward, iter_events.
        rewrite (truthy_strip _ Hline), Hline, Hid, Henc; simpl.
        trace_simpl. rewrite results_handle_exception, elem_of_nil. tauto.
    + unfold iteration, iter_events.
      rewrite (truthy_strip _ Hline), Hline, Hid; simpl.
      trace_simpl. rewrite elem_of_nil. tauto.
  - unfold iteration, iter_events. rewrite Hline.
    destruct (truthy raw); simpl; trace_simpl; rewrite elem_of_nil; tauto.
Qed.

Lemma prints_iteration cfg sid raw w :
  prints (iter_events (iteration rt cfg sid raw w))
  = iteration_output rt cfg sid raw w.
Proof.
  unfold iteration_output.
  destruct (truthy (strip raw)) eqn:Hline.
  - destruct (extract_request_id rt (strip raw)) as [id|c] eqn:Hid.
    + destruct (encode_utf8 (strip raw)) as [body|] eqn:Henc.
      * rewrite (iteration_forwarded cfg sid raw w id body Hline Hid Henc).
        unfold iter_events; simpl. rewrite prints_app, prints_prelude. simpl.
        destruct ((session_post rt w (build_request cfg sid body)).1); simpl;
          auto using prints_handle_response, prints_handle_exception.
      * unfold iteration, forward, iter_events.
        rewrite (truthy_strip _ Hline), Hline, Hid, Henc; simpl.
        trace_simpl. rewrite prints_handle_exception. reflexivity.
    + unfold iteration, iter_events.
      rewrite (truthy_strip _ Hline), Hline, Hid; simpl.
      trace_simpl. reflexivity.
  - unfold iteration, iter_events. rewrite Hline.
    destruct (truthy raw); simpl; trace_simpl; reflexivity.
Qed.

(** Only an exception raised by the id extraction keeps an iteration that
    has read a line from going back to the top of the loop. *)
Lemma iteration_control cfg sid raw w :
  iter_control (iteration rt cfg sid raw w)
  = if truthy raw then
      if truthy (strip raw) then
        match extract_request_id rt (strip raw) with
        | inl _ => Continue
        | inr c => Propagate c
        end
      else Continue
    else Break.
Proof.
  unfold iteration, iter_control.
  destruct (truthy raw); simpl; [|reflexivity].
  destruct (truthy (strip raw)); simpl; [|reflexivity].
  destruct (extract_request_id rt (strip raw)); [|reflexivity].
  unfold forward. destruct (encode_utf8 (strip raw)); [|reflexivity].
  destruct (session_post _ _ _). destruct (handle_result _ _ _ _).
  reflexivity.
Qed.

Lemma bridge_loop_continue cfg sid raw rest w :
  iter_control (iteration rt cfg sid raw w) = Continue ->
  proceeds_to_next rt cfg sid raw rest w.
Proof.
  unfold proceeds_to_next, iter_control, iter_events, iter_session,
    iter_world.
  simpl. destruct (iteration rt cfg sid raw w) as [[[ev sid'] w'] ctl].
  simpl. intros ->. destruct (bridge_loop rt cfg sid' rest w'). reflexivity.
Qed.

Lemma result_proceeds cfg sid raw rest w res :
  HttpResult res ∈ iter_events (iteration rt cfg sid raw w) ->
  proceeds_to_next rt cfg sid raw rest w.
Proof.
  intros (id & body & Hline & Hid & _)%iteration_result_inv.
  apply bridge_loop_continue. rewrite iteration_control.
  rewrite (truthy_strip _ Hline), Hline, Hid. reflexivity.
Qed.

End Iteration.

(** ** Replies and error replies of one iteration *)






(** C6.  In an iteration whose call raises, exactly one line is printed:
    the error reply with the request id extracted from the line and code
    -32000, and the loop goes on with the next line.  Its message is
    [Request timed out] for a timeout, the hint that the server may not be
    running for a connection error that is not a timeout, and the
    exception's own description for anything else. *)
Theorem call_failure_reported {World : Type} (rt : runtime World)
    (cfg : config) (sid : option str) (raw : str) (rest : list str)
    (w : World) (e : exception) :
  HttpResult (Raises e) ∈ iter_events (iteration rt cfg sid raw w) ->
  exists id msg,
    extract_request_id rt (strip raw) = inl id
    /\ prints (iter_events (iteration rt cfg sid raw w))
       = [Dumps (error_reply id (-32000) msg)]
    /\ (is_Timeout (exc_cls e) = true -> msg = py "Request timed out")
    /\ (is_Timeout (exc_cls e) = false ->
        is_ConnectionError (exc_cls e) = true ->
        msg = py "Connection error: Is the WhatsApp MCP server running?")
    /\ (is_Timeout (exc_cls e) = false ->
        is_ConnectionError (exc_cls e) = false ->
        msg = exc_str e)
    /\ proceeds_to_next rt cfg sid raw rest w.
Proof.
  intros Hin.
  pose proof (result_proceeds rt cfg sid raw rest w _ Hin) as Hnext.
  apply iteration_result_inv in Hin
    as (id & body & Hline & Hid & Henc & Hres).
  exists id, (failure_message e). split; [exact Hid|].
  split.
  { rewrite prints_iteration. unfold iteration_output.
    rewrite Hline, Hid, Henc, Hres. reflexivity. }
  unfold failure_message.
  repeat split; try exact Hnext; intros H1; try intros H2;
    rewrite H1, ?H2; reflexivity.
Qed.

Lemma call_failure_reported_witness :
  let raw := pyq "{'jsonrpc':'2.0','id':3,'method':'ping'}" ++ [10%N] in
  prints (iter_events (iteration Demo.rt Demo.cfg None raw [Demo.times_out]))
  = [Dumps (error_reply (JInt 3) (-32000) (py "Request timed out"))]
  /\ proceeds_to_next Demo.rt Demo.cfg None raw [] [Demo.times_out].
Proof.
  intros raw.
  destruct (call_failure_reported Demo.rt Demo.cfg None raw []
              [Demo.times_out]
              (Exc ReadTimeout (py "Read timed out. (read timeout=30)")))
    as (id & msg & Hid & Hprints & Htimeout & _ & _ & Hnext).
  - apply elem_of_results. vm_compute. apply list_elem_of_here.
  - split; [|exact Hnext].
    rewrite Hprints, (Htimeout eq_refl).
    vm_compute in Hid. injection Hid as <-. reflexivity.
Defined.

(** Every dict an iteration prints through [json.dumps] is an error reply
    stamped with the id extracted from the line. *)
Lemma iteration_dumps {World : Type} (rt : runtime World)
    (cfg : config) (sid : option str) (raw : str) (w : World) (v : json) :
  Print (Dumps v) ∈ iter_events (iteration rt cfg sid raw w) ->
  exists id msg,
    extract_request_id rt (strip raw) = inl id
    /\ v = error_reply id (-32000) msg.
Proof.
  rewrite elem_of_prints, prints_iteration. unfold iteration_output.
  destruct (truthy (strip raw)); [|rewrite elem_of_nil; tauto].
  destruct (extract_request_id rt (strip raw)) as [id|c];
    [|rewrite elem_of_nil; tauto].
  destruct (encode_utf8 (strip raw)) as [body|].
  - destruct ((session_post rt w (build_request cfg sid body)).1) as [r|e].
    + unfold response_output.
      destruct (400 <=? status_code r);
        [|destruct (truthy (resp_text r));
          [destruct (stdout_encode rt (resp_text r))|]];
        rewrite ?elem_of_cons, ?elem_of_nil; intros H;
        try (destruct H as [H|H]); try tauto; try discriminate;
        injection H as ->; eauto.
    + rewrite elem_of_cons, elem_of_nil. intros [H|[]].
      injection H as ->. eauto.
  - rewrite elem_of_cons, elem_of_nil. intros [H|[]].
    injection H as ->. eauto.
Qed.

(** The part of the correlation rule the script keeps.  When the line
    decodes to an object whose [id] member is [X], every error reply printed
    for the line carries [X].  When decoding fails with [JSONDecodeError],
    every error reply printed for the line carries a null id; the failure
    itself ends nothing (the iteration goes back to the top of the loop) and
    the line is still forwarded: the one request of the iteration has the
    encoded line as its body. *)
Theorem error_reply_carries_request_id {World : Type} (rt : runtime World)
    (cfg : config) (sid : option str) (raw : str) (w : World) :
  (forall d X,
      json_loads rt (strip raw) = Loaded (JObj d) ->
      dict_get d (py "id") = Some X ->
      forall v,
        Print (Dumps v) ∈ iter_events (iteration rt cfg sid raw w) ->
        exists code msg, v = error_reply X code msg)
  /\ (forall c,
         json_loads rt (strip raw) = LoadsRaises c ->
         is_JSONDecodeError c = true ->
         (forall v,
             Print (Dumps v) ∈ iter_events (iteration rt cfg sid raw w) ->
             exists code msg, v = error_reply JNull code msg)
         /\ (truthy raw = true ->
             iter_control (iteration rt cfg sid raw w) = Continue)
         /\ (forall body,
                truthy (strip raw) = true ->
                encode_utf8 (strip raw) = Some body ->
                posts (iter_events (iteration rt cfg sid raw w))
                = [build_request cfg sid body])).
Proof.
  split.
  - intros d X Hloads Hget v (id & msg & Hid & ->)%iteration_dumps.
    unfold extract_request_id in Hid. rewrite Hloads, Hget in Hid.
    injection Hid as <-. eauto.
  - intros c Hloads Hdec.
    assert (Hid : extract_request_id rt (strip raw) = inl JNull).
    { unfold extract_request_id. rewrite Hloads, Hdec. reflexivity. }
    split; [|split].
    + intros v (id & msg & Hid' & ->)%iteration_dumps.
      rewrite Hid in Hid'. injection Hid' as <-. eauto.
    + intros Hraw. rewrite iteration_control, Hraw, Hid.
      destruct (truthy (strip raw)); reflexivity.
    + intros body Hline Henc.
      rewrite (iteration_forwarded rt cfg sid raw w JNull body Hline Hid Henc).
      unfold iter_events; simpl. rewrite posts_app, posts_prelude. simpl.
      destruct ((session_post rt w (build_request cfg sid body)).1); simpl;
        rewrite ?posts_handle_response, ?posts_handle_exception; reflexivity.
Qed.

Lemma error_reply_carries_request_id_witness :
  (forall v,
      Print (Dumps v)
      ∈ iter_events (iteration Demo.rt Demo.cfg None
                       (pyq "{'id':'req-9','method':'ping'}" ++ [10%N])
                       [Demo.failing 500 (py "boom")]) ->
      exists code msg, v = error_reply (JStr (py "req-9")) code msg)
  /\ (forall v,
         Print (Dumps v)
         ∈ iter_events (iteration Demo.rt Demo.cfg None
                          (py "not json" ++ [10%N]) []) ->
         exists code msg, v = error_reply JNull code msg)
  /\ posts (iter_events (iteration Demo.rt Demo.cfg None
                           (py "not json" ++ [10%N]) []))
     = [build_request Demo.cfg None
          (map mkbyte (py "not json"))].
Proof.
  split; [|split].
  - apply (proj1 (error_reply_carries_request_id Demo.rt Demo.cfg None
                    (pyq "{'id':'req-9','method':'ping'}" ++ [10%N])
                    [Demo.failing 500 (py "boom")])
             [(py "id", JStr (py "req-9")); (py "method", JStr (py "ping"))]);
      reflexivity.
  - apply (proj2 (error_reply_carries_request_id Demo.rt Demo.cfg None
                    (py "not json" ++ [10%N]) []) JSONDecodeError);
      reflexivity.
  - apply (proj2 (error_reply_carries_request_id Demo.rt Demo.cfg None
                    (py "not json" ++ [10%N]) []) JSONDecodeError);
      reflexivity.
Defined.

(** [strip] computed without scanning: a text that neither starts nor ends
    with whitespace, followed by whitespace, strips to itself. *)
Lemma lstrip_skip (pre s : str) :
  Forall (fun c => isspace c = true) pre -> lstrip (pre ++ s) = lstrip s.
Proof.
  induction 1 as [|c pre Hc _ IH]; simpl; [reflexivity|].
  rewrite Hc. exact IH.
Qed.

Lemma strip_core (core suf : str) :
  Forall (fun c => isspace c = true) suf ->
  (exists c t, core = c :: t /\ isspace c = false) ->
  (exists t c, core = t ++ [c] /\ isspace c = false) ->
  strip (core ++ suf) = core.
Proof.
  intros Hsuf (c & t & -> & Hc) (t' & c' & Hlast & Hc').
  unfold strip, rstrip. simpl lstrip at 2. rewrite Hc.
  change (c :: t ++ suf) with ((c :: t) ++ suf).
  rewrite rev_app_distr, lstrip_skip.
  - rewrite Hlast, rev_app_distr. simpl. rewrite Hc'.
    change (c' :: rev t') with (rev [c'] ++ rev t').
    rewrite <- rev_app_distr, rev_involutive. reflexivity.
  - apply Forall_forall. intros x Hx.
    apply list_elem_of_In, in_rev, list_elem_of_In in Hx.
    revert x Hx. apply Forall_forall. exact Hsuf.
Qed.

(** C7, where the script departs from it.  Line 80 catches
    [json.JSONDecodeError] only.  When decoding the line fails with an
    exception of another class (CPython raises [ValueError] on an integer
    literal of more than 4300 digits, [RecursionError] on deep nesting), no
    null id is used: the exception leaves the loop, the script stops with a
    traceback after reading that line, the line is not forwarded, no error
    reply is printed and the remaining lines are never read. *)
Theorem decode_failure_of_other_class_aborts_run {World : Type}
    (rt : runtime World) (cfg : config) (sid : option str) (raw : str)
    (rest : list str) (w : World) (c : exc_class) :
  truthy (strip raw) = true ->
  json_loads rt (strip raw) = LoadsRaises c ->
  is_JSONDecodeError c = false ->
  (bridge_loop rt cfg sid (raw :: rest) w).2 = Traceback c
  /\ reads (bridge_loop rt cfg sid (raw :: rest) w).1 = [raw]
  /\ posts (bridge_loop rt cfg sid (raw :: rest) w).1 = []
  /\ prints (bridge_loop rt cfg sid (raw :: rest) w).1 = [].
Proof.
  intros Hline Hloads Hcls.
  assert (Hid : extract_request_id rt (strip raw) = inr c).
  { unfold extract_request_id. rewrite Hloads, Hcls. reflexivity. }
  cbn [bridge_loop]. unfold iteration.
  rewrite (truthy_strip _ Hline), Hline, Hid. cbn [negb fst snd].
  repeat split; trace_simpl; reflexivity.
Qed.

Lemma decode_failure_of_other_class_aborts_run_witness :
  let text := pyq "{'jsonrpc':'2.0','id':7,'method':'ping','n':"
              ++ repeat 49%N 5000 ++ py "}" in
  let raw := text ++ [10%N] in
  let rest := [pyq "{'jsonrpc':'2.0','id':8,'method':'ping'}" ++ [10%N]] in
  let run := bridge_loop Demo.rt_limited Demo.cfg None (raw :: rest) [] in
  json_loads Demo.rt_limited (strip raw) = LoadsRaises ValueError
  /\ run.2 = Traceback ValueError
  /\ reads run.1 = [raw]
  /\ posts run.1 = []
  /\ prints run.1 = [].
Proof.
  intros text raw rest run.
  assert (Hstrip : strip raw = text).
  { apply strip_core.
    - repeat constructor.
    - exists 123%N, (pyq "'jsonrpc':'2.0','id':7,'method':'ping','n':"
                     ++ repeat 49%N 5000 ++ py "}").
      split; reflexivity.
    - exists (pyq "{'jsonrpc':'2.0','id':7,'method':'ping','n':"
              ++ repeat 49%N 5000), 125%N.
      split; [|reflexivity]. unfold text. rewrite <- app_assoc. reflexivity. }
  assert (Hloads : json_loads Demo.rt_limited (strip raw)
                   = LoadsRaises ValueError).
  { rewrite Hstrip. vm_compute. reflexivity. }
  split; [exact Hloads|].
  apply (decode_failure_of_other_class_aborts_run Demo.rt_limited Demo.cfg
           None raw rest [] ValueError).
  - rewrite Hstrip. reflexivity.
  - exact Hloads.
  - reflexivity.
Defined.

(** ** The forwarded body *)

Lemma lstrip_split (s : str) : exists pre, s = pre ++ lstrip s /\ blank pre.
Proof.
  induction s as [|c s (pre & IH & Hpre)]; simpl.
  - exists []. split; [reflexivity | constructor].
  - destruct (isspace c) eqn:Hc.
    + exists (c :: pre). split; [simpl; congruence | constructor; assumption].
    + exists []. split; [reflexivity | constructor].
Qed.

Lemma lstrip_head (s : str) c t : lstrip s = c :: t -> isspace c = false.
Proof.
  induction s as [|a s IH]; simpl; [discriminate|].
  destruct (isspace a) eqn:Ha; [exact IH|].
  intros [= <- _]. exact Ha.
Qed.

Lemma rstrip_split (s : str) : exists suf, s = rstrip s ++ suf /\ blank suf.
Proof.
  destruct (lstrip_split (rev s)) as (pre & Heq & Hpre).
  exists (rev pre). split.
  - unfold rstrip. rewrite <- rev_app_distr, <- Heq, rev_involutive.
    reflexivity.
  - unfold blank. apply Forall_forall. intros c Hc.
    apply list_elem_of_In, in_rev, list_elem_of_In in Hc.
    revert c Hc. apply Forall_forall. exact Hpre.
Qed.

Lemma rstrip_last (s : str) t c : rstrip s = t ++ [c] -> isspace c = false.
Proof.
  unfold rstrip. intros H.
  apply (f_equal (@rev N)) in H.
  rewrite rev_involutive, rev_app_distr in H. simpl in H.
  exact (lstrip_head _ _ _ H).
Qed.

(** [strip] removes a blank prefix and a blank suffix and nothing else, and
    what is left neither starts nor ends with a blank. *)
Lemma strip_spec (s : str) :
  (exists pre suf, s = pre ++ strip s ++ suf /\ blank pre /\ blank suf)
  /\ (forall c t, strip s = c :: t -> isspace c = false)
  /\ (forall t c, strip s = t ++ [c] -> isspace c = false).
Proof.
  unfold strip.
  destruct (lstrip_split s) as (pre & Hs & Hpre).
  destruct (rstrip_split (lstrip s)) as (suf & Hl & Hsuf).
  split; [|split].
  - exists pre, suf. rewrite <- Hl. auto.
  - intros c t Hc. rewrite Hc in Hl. simpl in Hl.
    exact (lstrip_head _ _ _ Hl).
  - intros t c. apply rstrip_last.
Qed.

Lemma posts_iteration {World : Type} (rt : runtime World)
    (cfg : config) (sid : option str) (raw : str) (w : World) :
  posts (iter_events (iteration rt cfg sid raw w))
  = if truthy (strip raw) then
      match extract_request_id rt (strip raw), encode_utf8 (strip raw) with
      | inl _, Some body => [build_request cfg sid body]
      | _, _ => []
      end
    else [].
Proof.
  destruct (truthy (strip raw)) eqn:Hline.
  - destruct (extract_request_id rt (strip raw)) as [id|c] eqn:Hid.
    + destruct (encode_utf8 (strip raw)) as [body|] eqn:Henc.
      * rewrite (iteration_forwarded rt cfg sid raw w id body Hline Hid Henc).
        unfold iter_events; simpl. rewrite posts_app, posts_prelude. simpl.
        destruct ((session_post rt w (build_request cfg sid body)).1); simpl;
          rewrite ?posts_handle_response, ?posts_handle_exception;
          reflexivity.
      * unfold iteration, forward, iter_events.
        rewrite (truthy_strip _ Hline), Hline, Hid, Henc; simpl.
        trace_simpl. rewrite posts_handle_exception. reflexivity.
    + unfold iteration, iter_events.
      rewrite (truthy_strip _ Hline), Hline, Hid; simpl.
      trace_simpl. reflexivity.
  - unfold iteration, iter_events. rewrite Hline.
    destruct (truthy raw); simpl; trace_simpl; reflexivity.
Qed.

(** C2, as the script has it.  Every request sent for a line has as body the
    UTF-8 encoding of the line with its leading and trailing whitespace
    removed: the line is a blank prefix, the forwarded text and a blank
    suffix (the newline at least), and the forwarded text is not empty and
    neither starts nor ends with whitespace.  Nothing between the two ends is
    touched and nothing is serialized again. *)
Theorem forwarded_body_is_stripped_line {World : Type} (rt : runtime World)
    (cfg : config) (sid : option str) (raw : str) (w : World)
    (rq : request) :
  HttpPost rq ∈ iter_events (iteration rt cfg sid raw w) ->
  encode_utf8 (strip raw) = Some (req_data rq)
  /\ strip raw <> []
  /\ (exists pre suf,
         raw = pre ++ strip raw ++ suf /\ blank pre /\ blank suf)
  /\ (forall c t, strip raw = c :: t -> isspace c = false)
  /\ (forall t c, strip raw = t ++ [c] -> isspace c = false).
Proof.
  rewrite elem_of_posts, posts_iteration.
  destruct (truthy (strip raw)) eqn:Hline; [|rewrite elem_of_nil; tauto].
  destruct (extract_request_id rt (strip raw)); [|rewrite elem_of_nil; tauto].
  destruct (encode_utf8 (strip raw)) as [body|];
    [|rewrite elem_of_nil; tauto].
  rewrite elem_of_cons, elem_of_nil. intros [->|[]]. simpl.
  split; [reflexivity|]. split.
  - intros H. rewrite H in Hline. discriminate.
  - apply strip_spec.
Qed.

Lemma forwarded_body_is_stripped_line_witness :
  let raw := pyq "  {'id':1,'method':'ping'} " ++ [13%N; 10%N] in
  let rq := build_request Demo.cfg None
              (map mkbyte (pyq "{'id':1,'method':'ping'}")) in
  HttpPost rq ∈ iter_events (iteration Demo.rt Demo.cfg None raw [])
  /\ strip raw = pyq "{'id':1,'method':'ping'}"
  /\ encode_utf8 (strip raw) = Some (req_data rq).
Proof.
  intros raw rq.
  assert (Hin : HttpPost rq
                ∈ iter_events (iteration Demo.rt Demo.cfg None raw [])).
  { apply elem_of_posts. vm_compute. apply list_elem_of_here. }
  split; [exact Hin|]. split; [reflexivity|].
  exact (proj1 (forwarded_body_is_stripped_line Demo.rt Demo.cfg None raw []
                  rq Hin)).
Defined.

(** C2, as worded, fails: the body is not the line as read.  For the line
    made of two spaces, [{"id":1}] and a newline the body is the eight bytes
    of [{"id":1}], while the line as read has eleven. *)
Lemma forwarded_body_differs_from_line :
  let raw := pyq "  {'id':1}" ++ [10%N] in
  exists rq,
    posts (iter_events (iteration Demo.rt Demo.cfg None raw [])) = [rq]
    /\ encode_utf8 raw = Some (map mkbyte raw)
    /\ req_data rq = map mkbyte (pyq "{'id':1}")
    /\ req_data rq <> map mkbyte raw.
Proof.
  intros raw.
  exists (build_request Demo.cfg None (map mkbyte (pyq "{'id':1}"))).
  split; [vm_compute; reflexivity|].
  split; [vm_compute; reflexivity|].
  split; [reflexivity|].
  vm_compute. discriminate.
Qed.

(** ** The session token *)

Lemma held_token_app (h : option str) (a b : list event) :
  held_token h (a ++ b) = held_token (held_token h a) b.
Proof. apply fold_left_app. Qed.

Lemma attaches_nonempty_token_app (h : option str) (a b : list event) :
  attaches_nonempty_token h (a ++ b)
  <-> attaches_nonempty_token h a
      /\ attaches_nonempty_token (held_token h a) b.
Proof.
  revert h. induction a as [|e a IH]; intros h; simpl.
  - tauto.
  - rewrite IH. tauto.
Qed.

(** A stretch of trace without requests and results neither breaks the
    discipline nor changes the token. *)
Lemma quiet_trace (h : option str) (tr : list event) :
  posts tr = [] -> results tr = [] ->
  attaches_nonempty_token h tr /\ held_token h tr = h.
Proof.
  induction tr as [|e tr IH]; simpl; [auto|].
  destruct e; simpl; try discriminate; intros Hp Hr;
    destruct (IH Hp Hr); auto.
Qed.

Lemma call_headers_lookup (sid : option str) :
  call_headers sid !! "Mcp-Session-Id"
  = (if truthy_opt sid then sid else None).
Proof.
  unfold call_headers. destruct sid as [t|]; simpl; [|reflexivity].
  destruct (truthy t); [apply lookup_singleton_eq | apply lookup_empty].
Qed.

Section Session.

Context {World : Type} (rt : runtime World).

Lemma handle_result_session cfg id sid res :
  (handle_result rt cfg id sid res).2 = token_after sid (HttpResult res).
Proof.
  destruct res; simpl; [apply handle_response_session | reflexivity].
Qed.

Lemma handle_result_quiet cfg id sid res :
  posts (handle_result rt cfg id sid res).1 = []
  /\ results (handle_result rt cfg id sid res).1 = [].
Proof.
  destruct res; simpl;
    auto using posts_handle_response, results_handle_response,
      posts_handle_exception, results_handle_exception.
Qed.

(** The variable [mcp_session_id] is the token of the specification, and
    the request of an iteration carries it when it is not empty. *)
Lemma iteration_session cfg sid raw w :
  attaches_nonempty_token sid (iter_events (iteration rt cfg sid raw w))
  /\ held_token sid (iter_events (iteration rt cfg sid raw w))
     = iter_session (iteration rt cfg sid raw w).
Proof.
  destruct (truthy (strip raw)) eqn:Hline.
  - destruct (extract_request_id rt (strip raw)) as [id|c] eqn:Hid.
    + destruct (encode_utf8 (strip raw)) as [body|] eqn:Henc.
      * rewrite (iteration_forwarded rt cfg sid raw w id body Hline Hid Henc).
        unfold iter_events, iter_session; simpl.
        destruct (quiet_trace sid (prelude rt cfg sid raw id)
                    (posts_prelude rt cfg sid raw id)
                    (results_prelude rt cfg sid raw id)) as [Ha Hh].
        set (res := (session_post rt w (build_request cfg sid body)).1).
        destruct (handle_result_quiet cfg id sid res) as [Hp Hr].
        destruct (quiet_trace (token_after sid (HttpResult res)) _ Hp Hr)
          as [Ha' Hh'].
        rewrite attaches_nonempty_token_app, held_token_app, Hh.
        pose proof (handle_result_session cfg id sid res) as Hs.
        simpl in *. rewrite Hh', Hs.
        repeat split; auto using call_headers_lookup.
      * unfold iteration, forward, iter_events, iter_session.
        rewrite (truthy_strip _ Hline), Hline, Hid, Henc; simpl.
        apply quiet_trace; trace_simpl;
          rewrite ?posts_handle_exception, ?results_handle_exception;
          reflexivity.
    + unfold iteration, iter_events, iter_session.
      rewrite (truthy_strip _ Hline), Hline, Hid; simpl.
      apply quiet_trace; trace_simpl; reflexivity.
  - unfold iteration, iter_events, iter_session. rewrite Hline.
    destruct (truthy raw); simpl; apply quiet_trace; trace_simpl;
      reflexivity.
Qed.

Lemma bridge_loop_session cfg stdin :
  forall sid w,
    attaches_nonempty_token sid (bridge_loop rt cfg sid stdin w).1.
Proof.
  induction stdin as [|raw rest IH]; intros sid w.
  - pose proof (iteration_session cfg sid [] w) as [Ha _].
    unfold iter_events in Ha. cbn [bridge_loop].
    destruct (iteration rt cfg sid [] w) as [[[ev sid'] w'] ctl].
    cbn [fst] in *.
    apply attaches_nonempty_token_app. split; [exact Ha|].
    apply quiet_trace; auto using posts_log, results_log.
  - pose proof (iteration_session cfg sid raw w) as [Ha Hh].
    unfold iter_events, iter_session in Ha, Hh. cbn [bridge_loop].
    destruct (iteration rt cfg sid raw w) as [[[ev sid'] w'] ctl].
    cbn [fst snd] in *. destruct ctl.
    + specialize (IH sid' w').
      destruct (bridge_loop rt cfg sid' rest w') as [evs st].
      cbn [fst] in *.
      apply attaches_nonempty_token_app. rewrite Hh. auto.
    + cbn [fst]. apply attaches_nonempty_token_app. split; [exact Ha|].
      apply quiet_trace; auto using posts_log, results_log.
    + exact Ha.
Qed.

End Session.

(** C3, as the script has it.  Over a whole run: the token is unset at
    first; every response carrying the [Mcp-Session-Id] header overwrites it
    with the header's value, whatever the status and the body; and every
    request carries the token held when it is sent if that token is a
    non-empty string, and no such header otherwise (no token yet, or an
    empty one). *)
Theorem session_token_attached_when_nonempty {World : Type}
    (rt : runtime World) (env : gmap string str) (stdin : list str)
    (w : World) :
  attaches_nonempty_token None (main rt env stdin w).1.
Proof.
  unfold main.
  destruct (py_int rt _) as [timeout|]; [|exact I].
  destruct (env !! "MCP_API_KEY") as [key|]; [|simpl; auto].
  destruct (truthy key); [|simpl; auto].
  set (cfg := Config _ _ _ _ _).
  pose proof (bridge_loop_session rt cfg stdin None w) as H.
  destruct (bridge_loop rt cfg None stdin w) as [evs st]. cbn [fst] in *.
  apply attaches_nonempty_token_app. split.
  - apply quiet_trace; unfold startup_log; trace_simpl; reflexivity.
  - replace (held_token None _) with (@None str); [exact H|].
    symmetry. apply quiet_trace; unfold startup_log; trace_simpl;
      reflexivity.
Qed.

(** C3, as worded, fails on an empty token: a response whose
    [Mcp-Session-Id] header is empty makes the empty string the held token,
    and the next request carries no such header. *)
Lemma empty_token_not_attached :
  let stdin := [pyq "{'id':1,'method':'initialize'}" ++ [10%N];
                pyq "{'id':2,'method':'ping'}" ++ [10%N]] in
  let w := [Demo.ok_with_session [] (pyq "{'id':1,'result':{}}");
            Demo.ok (pyq "{'id':2,'result':{}}")] in
  let tr := (main Demo.rt Demo.env_with_key stdin w).1 in
  ~ attaches_held_token None tr
  /\ exists rq,
       tr = take 5 tr ++ HttpPost rq :: drop 6 tr
       /\ held_token None (take 5 tr) = Some []
       /\ req_headers rq !! "Mcp-Session-Id" = None.
Proof.
  intros stdin w tr. split.
  - vm_compute. intros H. decompose [and] H. discriminate.
  - exists (build_request (Config (py "s3cret") (py "localhost") (py "8080")
                             30 false)
              (Some []) (map mkbyte (pyq "{'id':2,'method':'ping'}"))).
    split; [vm_compute; reflexivity|].
    split; vm_compute; reflexivity.
Qed.

(** ** Startup *)

(** C10.  When [MCP_TIMEOUT] is set to a text [int] rejects, the script ends
    with an uncaught [ValueError] raised on line 24, before the credential is
    looked at: nothing is printed, nothing is read, nothing is sent, and this
    whether or not the credential is set. *)
Theorem bad_timeout_aborts_startup {World : Type} (rt : runtime World)
    (env : gmap string str) (stdin : list str) (w : World) (s : str) :
  env !! "MCP_TIMEOUT" = Some s ->
  py_int rt s = None ->
  main rt env stdin w = ([], Traceback ValueError).
Proof.
  intros Henv Hint. unfold main. rewrite Henv. simpl. rewrite Hint.
  reflexivity.
Qed.

Lemma bad_timeout_aborts_startup_witness :
  let env : gmap string str := {[ "MCP_TIMEOUT" := py "30s" ]} in
  env !! "MCP_API_KEY" = None
  /\ main Demo.rt env [pyq "{'id':1}" ++ [10%N]] []
     = ([], Traceback ValueError).
Proof.
  intros env. split; [reflexivity|].
  apply (bad_timeout_aborts_startup Demo.rt env _ _ (py "30s"));
    reflexivity.
Defined.

Lemma bridge_loop_dumps {World : Type} (rt : runtime World) (cfg : config)
    (stdin : list str) :
  forall sid w v,
    Print (Dumps v) ∈ (bridge_loop rt cfg sid stdin w).1 ->
    exists id msg, v = error_reply id (-32000) msg.
Proof.
  induction stdin as [|raw rest IH]; intros sid w v; cbn [bridge_loop].
  - pose proof (iteration_dumps rt cfg sid [] w v) as Hit.
    unfold iter_events in Hit.
    destruct (iteration rt cfg sid [] w) as [[[ev sid'] w'] ctl].
    cbn [fst] in *. rewrite elem_of_app. intros [H|H].
    + destruct (Hit H) as (id & msg & _ & ->). eauto.
    + apply elem_of_prints in H. rewrite prints_log in H.
      apply elem_of_nil in H. tauto.
  - pose proof (iteration_dumps rt cfg sid raw w v) as Hit.
    unfold iter_events in Hit.
    destruct (iteration rt cfg sid raw w) as [[[ev sid'] w'] ctl].
    cbn [fst] in *. destruct ctl.
    + specialize (IH sid' w' v).
      destruct (bridge_loop rt cfg sid' rest w') as [evs st]. cbn [fst] in *.
      rewrite elem_of_app. intros [H|H]; [|auto].
      destruct (Hit H) as (id & msg & _ & ->). eauto.
    + cbn [fst]. rewrite elem_of_app. intros [H|H].
      * destruct (Hit H) as (id & msg & _ & ->). eauto.
      * apply elem_of_prints in H. rewrite prints_log in H.
        apply elem_of_nil in H. tauto.
    + cbn [fst]. intros H. destruct (Hit H) as (id & msg & _ & ->). eauto.
Qed.

(** C8, as the script has it.  Provided the timeout setting is accepted by
    [int]: when [MCP_API_KEY] is unset or empty, the whole behaviour of the
    script is to print one error reply (null id, code -32600, the message
    that the variable is required) and to exit with status 1, so no line of
    input is read; when it is set to a non-empty text, the script writes its
    two start-up log lines and runs the loop from an unset session token,
    and the reply about the missing variable is never printed. *)
Theorem credential_checked_at_startup {World : Type} (rt : runtime World)
    (env : gmap string str) (stdin : list str) (w : World) (timeout : Z) :
  py_int rt (default (py "30") (env !! "MCP_TIMEOUT")) = Some timeout ->
  (truthy_opt (env !! "MCP_API_KEY") = false ->
   main rt env stdin w
   = ([Print (Dumps (error_reply JNull (-32600)
                       (py "MCP_API_KEY environment variable is required")))],
      Exit 1))
  /\ (forall key : str,
         env !! "MCP_API_KEY" = Some key ->
         key <> [] ->
         let cfg := Config key
                      (default (py "localhost") (env !! "MCP_HOST"))
                      (default (py "8080") (env !! "MCP_PORT"))
                      timeout (debug_enabled env) in
         main rt env stdin w
         = (startup_log cfg ++ (bridge_loop rt cfg None stdin w).1,
            (bridge_loop rt cfg None stdin w).2)
         /\ Print (Dumps missing_key_reply) ∉ (main rt env stdin w).1).
Proof.
  intros Hint. split.
  - intros Hkey. unfold main. rewrite Hint.
    destruct (env !! "MCP_API_KEY") as [key|]; simpl in Hkey;
      [rewrite Hkey|]; reflexivity.
  - intros key Hkey Hne cfg.
    assert (Hmain : main rt env stdin w
                    = (startup_log cfg ++ (bridge_loop rt cfg None stdin w).1,
                       (bridge_loop rt cfg None stdin w).2)).
    { unfold main. rewrite Hint, Hkey.
      destruct key; [congruence|]. cbn [truthy]. fold cfg.
      destruct (bridge_loop rt cfg None stdin w). reflexivity. }
    split; [exact Hmain|].
    rewrite Hmain. cbn [fst]. rewrite elem_of_app. intros [H|H].
    + apply elem_of_prints in H. unfold startup_log in H.
      rewrite prints_app, !prints_log in H. apply elem_of_nil in H. tauto.
    + apply bridge_loop_dumps in H as (id & msg & H). discriminate.
Qed.

Lemma credential_checked_at_startup_witness :
  main Demo.rt ∅ [pyq "{'id':1}" ++ [10%N]] []
  = ([Print (Dumps (error_reply JNull (-32600)
                      (py "MCP_API_KEY environment variable is required")))],
     Exit 1)
  /\ main Demo.rt Demo.env_with_key [] []
     = (startup_log Demo.cfg ++ (bridge_loop Demo.rt Demo.cfg None [] []).1,
        (bridge_loop Demo.rt Demo.cfg None [] []).2).
Proof.
  split.
  - destruct (credential_checked_at_startup Demo.rt ∅
                [pyq "{'id':1}" ++ [10%N]] [] 30) as [Hmissing _];
      [vm_compute; reflexivity|].
    apply Hmissing. reflexivity.
  - destruct (credential_checked_at_startup Demo.rt Demo.env_with_key
                [] [] 30) as [_ Hpresent];
      [vm_compute; reflexivity|].
    apply (Hpresent (py "s3cret")); [reflexivity | discriminate].
Defined.

(** C8, as worded, fails when the timeout setting is not an integer: with
    the credential absent the script prints no error reply at all and ends
    with an uncaught exception. *)
Lemma missing_credential_not_reported_on_bad_timeout :
  let env : gmap string str := {[ "MCP_TIMEOUT" := py "thirty" ]} in
  let run := main Demo.rt env [pyq "{'id':1}" ++ [10%N]] [] in
  env !! "MCP_API_KEY" = None
  /\ prints run.1 = []
  /\ run.2 = Traceback ValueError.
Proof. intros env run. repeat split; vm_compute; reflexivity. Qed.

(** ** The loop and its end *)

Section Loop.

Context {World : Type} (rt : runtime World).

(** Reaching the end of the input ends the script with status 0 and prints
    nothing. *)
Lemma end_of_input_exits_cleanly cfg sid w :
  (bridge_loop rt cfg sid [] w).2 = Exit 0
  /\ prints (bridge_loop rt cfg sid [] w).1 = [].
Proof.
  cbn [bridge_loop]. unfold iteration. cbn [truthy negb].
  split; [reflexivity|]. cbn [fst]. trace_simpl. reflexivity.
Qed.

(** While the id extraction raises on no line, the loop reads its way to
    the end of the input: every line is read, whatever was answered or
    raised downstream, and the script ends with status 0. *)
Lemma loop_reads_all_input (cfg : config) (stdin : list str) :
  Forall (fun raw : str => raw <> []) stdin ->
  Forall (fun raw : str => truthy (strip raw) = true ->
                     exists id, extract_request_id rt (strip raw) = inl id)
         stdin ->
  forall sid w,
    (bridge_loop rt cfg sid stdin w).2 = Exit 0
    /\ reads (bridge_loop rt cfg sid stdin w).1 = stdin ++ [[]].
Proof.
  induction stdin as [|raw rest IH]; intros Hne Hok sid w.
  - split; [apply end_of_input_exits_cleanly|].
    cbn [bridge_loop]. unfold iteration. cbn [truthy negb fst].
    trace_simpl. reflexivity.
  - apply Forall_cons in Hne as [Hraw Hne].
    apply Forall_cons in Hok as [Hid Hok].
    assert (Hctl : iter_control (iteration rt cfg sid raw w) = Continue).
    { rewrite iteration_control. destruct raw; [congruence|]. cbn [truthy].
      destruct (truthy (strip (n :: raw))); [|reflexivity].
      destruct (Hid eq_refl) as [id ->]. reflexivity. }
    assert (Hreads : reads (iter_events (iteration rt cfg sid raw w))
                     = [raw]).
    { unfold iteration, iter_events.
      destruct raw; [congruence|]. cbn [truthy negb].
      destruct (truthy (strip (n :: raw))) eqn:Hline; cbn [negb].
      - destruct (Hid eq_refl) as [id Hx]. rewrite Hx.
        unfold forward. destruct (encode_utf8 _).
        + destruct (session_post _ _ _) as [res w'].
          destruct res; cbn [handle_result].
          * destruct (handle_response _ _ _ _) as [ev s'] eqn:Hr.
            cbn [fst]. trace_simpl.
            pose proof (reads_handle_response rt cfg id sid r) as Hz.
            rewrite Hr in Hz. cbn [fst] in Hz. rewrite Hz. reflexivity.
          * cbn [fst]. trace_simpl. rewrite reads_handle_exception.
            reflexivity.
        + cbn [fst]. trace_simpl. rewrite reads_handle_exception.
          reflexivity.
      - cbn [fst]. trace_simpl. reflexivity. }
    pose proof (bridge_loop_continue rt cfg sid raw rest w Hctl) as Hnext.
    unfold proceeds_to_next in Hnext. cbv zeta in Hnext. rewrite Hnext.
    cbn [fst snd]. rewrite reads_app, Hreads.
    destruct (IH Hne Hok (iter_session (iteration rt cfg sid raw w))
                (iter_world (iteration rt cfg sid raw w))) as [-> ->].
    split; reflexivity.
Qed.

End Loop.

(** C1, where the script departs from it.  A line that decodes to a JSON
    value other than an object ends the run: [req_json.get] raises
    [AttributeError] outside every [try], so the script stops with a
    traceback after reading that line; nothing is sent or printed for it and
    the remaining lines are never read. *)
Theorem non_object_json_line_aborts_run {World : Type} (rt : runtime World)
    (cfg : config) (sid : option str) (raw : str) (rest : list str)
    (w : World) (v : json) :
  truthy (strip raw) = true ->
  json_loads rt (strip raw) = Loaded v ->
  (forall members, v <> JObj members) ->
  (bridge_loop rt cfg sid (raw :: rest) w).2 = Traceback AttributeError
  /\ reads (bridge_loop rt cfg sid (raw :: rest) w).1 = [raw]
  /\ posts (bridge_loop rt cfg sid (raw :: rest) w).1 = []
  /\ prints (bridge_loop rt cfg sid (raw :: rest) w).1 = [].
Proof.
  intros Hline Hloads Hv.
  assert (Hid : extract_request_id rt (strip raw) = inr AttributeError).
  { unfold extract_request_id. rewrite Hloads.
    destruct v; try reflexivity. exfalso. eapply Hv. reflexivity. }
  cbn [bridge_loop]. unfold iteration.
  rewrite (truthy_strip _ Hline), Hline, Hid. cbn [negb fst snd].
  repeat split; trace_simpl; reflexivity.
Qed.

Lemma non_object_json_line_aborts_run_witness :
  let stdin := [pyq "[1, 2]" ++ [10%N];
                pyq "{'jsonrpc':'2.0','id':2,'method':'ping'}" ++ [10%N]] in
  let run := main Demo.rt Demo.env_with_key stdin [] in
  run.2 = Traceback AttributeError
  /\ reads run.1 = [pyq "[1, 2]" ++ [10%N]]
  /\ posts run.1 = []
  /\ prints run.1 = [].
Proof.
  intros stdin run.
  exact (non_object_json_line_aborts_run Demo.rt Demo.cfg None
           (pyq "[1, 2]" ++ [10%N])
           [pyq "{'jsonrpc':'2.0','id':2,'method':'ping'}" ++ [10%N]] []
           (JArr [JInt 1; JInt 2]) eq_refl eq_refl
           ltac:(discriminate)).
Defined.

(** ** The diagnostic log *)

Lemma is_prefix_app (p s t : str) :
  is_prefix p s = true -> is_prefix p (s ++ t) = true.
Proof.
  revert s. induction p as [|a p IH]; intros [|b s]; simpl; auto;
    [discriminate|].
  intros [-> H]%andb_prop. rewrite (IH _ H). reflexivity.
Qed.

Lemma contains_app_l (n a b : str) :
  contains n a = true -> contains n (a ++ b) = true.
Proof.
  induction a as [|c a IH]; simpl.
  - rewrite orb_false_r. destruct n; [|discriminate]. intros _.
    destruct b; reflexivity.
  - intros [H|H]%orb_prop; apply orb_true_iff;
      [left; exact (is_prefix_app n (c :: a) b H) | right; auto].
Qed.

Lemma contains_app_r (n a b : str) :
  contains n b = true -> contains n (a ++ b) = true.
Proof.
  intros H. induction a as [|c a IH]; simpl; [exact H|].
  rewrite IH. apply orb_true_r.
Qed.

Section Log.

Context {World : Type} (rt : runtime World).

Lemma log_off cfg m : DEBUG cfg = false -> log cfg m = [].
Proof. unfold log. intros ->. reflexivity. Qed.

Lemma log_writes_handle_exception_off cfg id e :
  DEBUG cfg = false -> log_writes (handle_exception cfg id e) = [].
Proof.
  intros Hd. unfold handle_exception, log. rewrite Hd.
  destruct (is_Timeout _); [|destruct (is_ConnectionError _)]; reflexivity.
Qed.

Lemma log_writes_handle_response_off cfg id sid r :
  DEBUG cfg = false -> log_writes (handle_response rt cfg id sid r).1 = [].
Proof.
  intros Hd.
  pose proof (log_writes_handle_exception_off cfg id
                (Exc UnicodeEncodeError (stdout_error_str rt (resp_text r)))
                Hd) as He.
  unfold handle_response, log in *. rewrite Hd in *.
  destruct (resp_headers r !! "Mcp-Session-Id");
    destruct (400 <=? status_code r); try reflexivity;
    destruct (truthy (resp_text r)); try reflexivity; cbn [negb];
    destruct (stdout_encode rt (resp_text r)); try reflexivity;
    cbn [fst app]; exact He.
Qed.

Lemma log_writes_prelude_off cfg sid raw id :
  DEBUG cfg = false -> log_writes (prelude rt cfg sid raw id) = [].
Proof.
  intros Hd. unfold prelude, log_session, log. rewrite Hd.
  destruct sid as [t|]; [destruct (truthy t)|]; reflexivity.
Qed.

Lemma log_writes_iteration_off cfg sid raw w :
  DEBUG cfg = false ->
  log_writes (iter_events (iteration rt cfg sid raw w)) = [].
Proof.
  intros Hd.
  destruct (truthy (strip raw)) eqn:Hline.
  - destruct (extract_request_id rt (strip raw)) as [id|c] eqn:Hid.
    + destruct (encode_utf8 (strip raw)) as [body|] eqn:Henc.
      * rewrite (iteration_forwarded rt cfg sid raw w id body Hline Hid Henc).
        unfold iter_events; cbn [fst].
        rewrite log_writes_app, log_writes_prelude_off by exact Hd.
        cbn [app log_writes].
        destruct ((session_post rt w (build_request cfg sid body)).1);
          cbn [handle_result fst];
          auto using log_writes_handle_response_off,
            log_writes_handle_exception_off.
      * unfold iteration, forward, iter_events.
        rewrite (truthy_strip _ Hline), Hline, Hid, Henc. cbn [negb fst].
        rewrite !log_writes_app, log_writes_handle_exception_off by exact Hd.
        rewrite !(log_off cfg) by exact Hd.
        unfold log_session, log. rewrite Hd.
        destruct sid as [t|]; [destruct (truthy t)|]; reflexivity.
    + unfold iteration, iter_events.
      rewrite (truthy_strip _ Hline), Hline, Hid. cbn [negb fst].
      rewrite !log_writes_app, !(log_off cfg) by exact Hd. reflexivity.
  - unfold iteration, iter_events. rewrite Hline.
    destruct (truthy raw); cbn [negb fst];
      rewrite !log_writes_app, !(log_off cfg) by exact Hd; reflexivity.
Qed.

Lemma log_writes_loop_off cfg stdin :
  DEBUG cfg = false ->
  forall sid w, log_writes (bridge_loop rt cfg sid stdin w).1 = [].
Proof.
  intros Hd. induction stdin as [|raw rest IH]; intros sid w;
    cbn [bridge_loop].
  - pose proof (log_writes_iteration_off cfg sid [] w Hd) as Hit.
    unfold iter_events in Hit.
    destruct (iteration rt cfg sid [] w) as [[[ev sid'] w'] ctl].
    cbn [fst] in *. rewrite log_writes_app, Hit, (log_off _ _ Hd).
    reflexivity.
  - pose proof (log_writes_iteration_off cfg sid raw w Hd) as Hit.
    unfold iter_events in Hit.
    destruct (iteration rt cfg sid raw w) as [[[ev sid'] w'] ctl].
    cbn [fst] in *. destruct ctl.
    + specialize (IH sid' w').
      destruct (bridge_loop rt cfg sid' rest w') as [evs st]. cbn [fst] in *.
      rewrite log_writes_app, Hit, IH. reflexivity.
    + cbn [fst]. rewrite log_writes_app, Hit, (log_off _ _ Hd). reflexivity.
    + exact Hit.
Qed.

(** The first half of C9 holds: with the debug flag off, no run writes to
    the log file. *)
Lemma log_untouched_without_debug (env : gmap string str)
    (stdin : list str) (w : World) :
  debug_enabled env = false ->
  log_writes (main rt env stdin w).1 = [].
Proof.
  intros Hd. unfold main.
  destruct (py_int rt _) as [timeout|]; [|reflexivity].
  destruct (env !! "MCP_API_KEY") as [key|]; [|reflexivity].
  destruct (truthy key); [|reflexivity].
  rewrite Hd. set (cfg := Config _ _ _ _ _).
  pose proof (log_writes_loop_off cfg stdin eq_refl None w) as H.
  destruct (bridge_loop rt cfg None stdin w) as [evs st]. cbn [fst] in *.
  unfold startup_log. rewrite !log_writes_app, H.
  rewrite !(log_off cfg) by reflexivity. reflexivity.
Qed.

End Log.

(** C9, where the script departs from it.  With the debug flag on, when the
    call raises an exception that is not a timeout and whose description
    contains the credential, that description is written to the log as it
    is: the log then has a line containing the credential, whatever the time
    stamp in front of it. *)
Theorem logged_exception_reveals_credential {World : Type}
    (rt : runtime World) (cfg : config) (sid : option str) (raw : str)
    (w : World) (e : exception) :
  DEBUG cfg = true ->
  HttpResult (Raises e) ∈ iter_events (iteration rt cfg sid raw w) ->
  is_Timeout (exc_cls e) = false ->
  contains (API_KEY cfg) (exc_str e) = true ->
  exists msg,
    LogWrite msg ∈ iter_events (iteration rt cfg sid raw w)
    /\ forall now, contains (API_KEY cfg) (log_line now msg) = true.
Proof.
  intros Hd (id & body & Hline & Hid & Henc & Hres)%iteration_result_inv
    Hto Hkey.
  rewrite (iteration_forwarded rt cfg sid raw w id body Hline Hid Henc).
  rewrite Hres. unfold iter_events. cbn [fst handle_result].
  unfold handle_exception, log. rewrite Hto, Hd.
  exists ((if is_ConnectionError (exc_cls e) then py "Connection error: "
           else py "Exception: ") ++ exc_str e).
  split.
  - apply elem_of_app. right. do 2 apply list_elem_of_further.
    destruct (is_ConnectionError (exc_cls e)); apply list_elem_of_here.
  - intros now. unfold log_line.
    apply (contains_app_r _ (py "[")), (contains_app_r _ now),
      (contains_app_r _ (py "] ")), contains_app_l, contains_app_r.
    exact Hkey.
Qed.

Lemma logged_exception_reveals_credential_witness :
  let raw := pyq "{'jsonrpc':'2.0','id':1,'method':'initialize'}" ++ [10%N] in
  let rq := build_request Demo.cfg_debug None
              (map mkbyte
                 (pyq "{'jsonrpc':'2.0','id':1,'method':'initialize'}")) in
  exists e msg,
    Demo.refused rq = Raises e
    /\ LogWrite msg
       ∈ iter_events (iteration Demo.rt Demo.cfg_debug None raw [])
    /\ forall now, contains (py "s3cret") (log_line now msg) = true.
Proof.
  intros raw rq.
  destruct (Demo.refused rq) as [r|e] eqn:Hrefused; [discriminate|].
  destruct (logged_exception_reveals_credential Demo.rt Demo.cfg_debug None
              raw [] e) as (msg & Hin & Hleak).
  - reflexivity.
  - apply elem_of_results. injection Hrefused as <-.
    vm_compute. apply list_elem_of_here.
  - injection Hrefused as <-. reflexivity.
  - injection Hrefused as <-. vm_compute. reflexivity.
  - exists e, msg. auto.
Defined.

(** The same on a whole run: debug on, nothing listening at the endpoint,
    one request on standard input. *)
Lemma debug_log_of_refused_connection :
  let run := main Demo.rt Demo.env_with_debug
               [pyq "{'jsonrpc':'2.0','id':1,'method':'initialize'}"
                ++ [10%N]] [] in
  existsb (contains (py "s3cret")) (log_writes run.1) = true
  /\ run.2 = Exit 0.
Proof. intros run. split; vm_compute; reflexivity. Qed.

(** * Further properties of the script *)

(** ** Blank lines and surrounding whitespace *)

Lemma lstrip_blank (s : str) : blank s -> lstrip s = [].
Proof.
  induction 1 as [|c s Hc _ IH]; simpl; [reflexivity|].
  rewrite Hc. exact IH.
Qed.

Lemma strip_blank (s : str) : blank s <-> strip s = [].
Proof.
  split.
  - intros H. unfold strip. rewrite (lstrip_blank s H). reflexivity.
  - intros H. destruct (strip_spec s) as [(pre & suf & Hs & Hpre & Hsuf) _].
    rewrite H in Hs. rewrite Hs. apply Forall_app. auto.
Qed.

Section Core.

Context {World : Type} (rt : runtime World).

(** The session id and the world an iteration leaves, read off the cases of
    its body. *)
Lemma iteration_state cfg sid raw w :
  (iter_session (iteration rt cfg sid raw w),
   iter_world (iteration rt cfg sid raw w))
  = if truthy (strip raw) then
      match extract_request_id rt (strip raw), encode_utf8 (strip raw) with
      | inl _, Some body =>
          (token_after sid
             (HttpResult (session_post rt w (build_request cfg sid body)).1),
           (session_post rt w (build_request cfg sid body)).2)
      | _, _ => (sid, w)
      end
    else (sid, w).
Proof.
  destruct (truthy (strip raw)) eqn:Hline.
  - destruct (extract_request_id rt (strip raw)) as [id|c] eqn:Hid.
    + destruct (encode_utf8 (strip raw)) as [body|] eqn:Henc.
      * rewrite (iteration_forwarded rt cfg sid raw w id body Hline Hid Henc).
        unfold iter_session, iter_world. cbn [fst snd].
        rewrite handle_result_session. reflexivity.
      * unfold iteration, forward, iter_session, iter_world.
        rewrite (truthy_strip _ Hline), Hline, Hid, Henc. reflexivity.
    + unfold iteration, iter_session, iter_world.
      rewrite (truthy_strip _ Hline), Hline, Hid. reflexivity.
  - unfold iteration, iter_session, iter_world. rewrite Hline.
    destruct (truthy raw); reflexivity.
Qed.

Lemma reads_iteration cfg sid raw w :
  reads (iter_events (iteration rt cfg sid raw w)) = [raw].
Proof.
  destruct (truthy (strip raw)) eqn:Hline.
  - destruct (extract_request_id rt (strip raw)) as [id|c] eqn:Hid.
    + destruct (encode_utf8 (strip raw)) as [body|] eqn:Henc.
      * rewrite (iteration_forwarded rt cfg sid raw w id body Hline Hid Henc).
        unfold iter_events. cbn [fst].
        rewrite reads_app, reads_prelude. cbn [reads app].
        destruct ((session_post rt w (build_request cfg sid body)).1);
          cbn [handle_result fst];
          rewrite ?reads_handle_response, ?reads_handle_exception;
          reflexivity.
      * unfold iteration, forward, iter_events.
        rewrite (truthy_strip _ Hline), Hline, Hid, Henc. cbn [negb fst].
        trace_simpl. rewrite reads_handle_exception. reflexivity.
    + unfold iteration, iter_events.
      rewrite (truthy_strip _ Hline), Hline, Hid. cbn [negb fst].
      trace_simpl. reflexivity.
  - unfold iteration, iter_events. rewrite Hline.
    destruct (truthy raw); cbn [negb fst]; trace_simpl; reflexivity.
Qed.

End Core.

(** X1.  A line that is not empty but consists of whitespace only is
    dropped: the iteration sends nothing, prints nothing, leaves the session
    id and the world as they were, and goes back to the top of the loop. *)
Theorem blank_line_is_skipped {World : Type} (rt : runtime World)
    (cfg : config) (sid : option str) (raw : str) (w : World) :
  raw <> [] ->
  blank raw ->
  posts (iter_events (iteration rt cfg sid raw w)) = []
  /\ prints (iter_events (iteration rt cfg sid raw w)) = []
  /\ iter_session (iteration rt cfg sid raw w) = sid
  /\ iter_world (iteration rt cfg sid raw w) = w
  /\ iter_control (iteration rt cfg sid raw w) = Continue.
Proof.
  intros Hne Hblank. apply strip_blank in Hblank.
  pose proof (iteration_state rt cfg sid raw w) as Hst.
  rewrite posts_iteration, prints_iteration, iteration_control.
  unfold iteration_output. rewrite Hblank in *. cbn [truthy] in *.
  injection Hst as -> ->.
  destruct raw; [congruence|]. repeat split; reflexivity.
Qed.

Lemma blank_line_is_skipped_witness :
  let raw := [32; 9; 13; 10]%N in
  let it := iteration Demo.rt Demo.cfg (Some (py "abc")) raw
              [Demo.ok (py "unused")] in
  posts (iter_events it) = []
  /\ prints (iter_events it) = []
  /\ iter_session it = Some (py "abc")
  /\ iter_world it = [Demo.ok (py "unused")]
  /\ iter_control it = Continue.
Proof.
  intros raw it.
  apply (blank_line_is_skipped Demo.rt Demo.cfg (Some (py "abc")) raw
           [Demo.ok (py "unused")]).
  - discriminate.
  - repeat constructor.
Defined.

(** X2.  Whitespace around a request does not matter: two non-empty lines
    with the same text once stripped make the script send the same
    requests, print the same lines and end the iteration in the same
    state. *)
Theorem surrounding_whitespace_is_irrelevant {World : Type}
    (rt : runtime World) (cfg : config) (sid : option str)
    (raw1 raw2 : str) (w : World) :
  raw1 <> [] -> raw2 <> [] ->
  strip raw1 = strip raw2 ->
  posts (iter_events (iteration rt cfg sid raw1 w))
  = posts (iter_events (iteration rt cfg sid raw2 w))
  /\ prints (iter_events (iteration rt cfg sid raw1 w))
     = prints (iter_events (iteration rt cfg sid raw2 w))
  /\ iter_session (iteration rt cfg sid raw1 w)
     = iter_session (iteration rt cfg sid raw2 w)
  /\ iter_world (iteration rt cfg sid raw1 w)
     = iter_world (iteration rt cfg sid raw2 w)
  /\ iter_control (iteration rt cfg sid raw1 w)
     = iter_control (iteration rt cfg sid raw2 w).
Proof.
  intros H1 H2 Heq.
  pose proof (iteration_state rt cfg sid raw1 w) as Hs1.
  pose proof (iteration_state rt cfg sid raw2 w) as Hs2.
  rewrite <- Heq in Hs2. rewrite <- Hs2 in Hs1. injection Hs1 as -> ->.
  rewrite !posts_iteration, !prints_iteration, !iteration_control.
  unfold iteration_output. rewrite Heq.
  destruct raw1; [congruence|]. destruct raw2; [congruence|].
  repeat split; reflexivity.
Qed.

Lemma surrounding_whitespace_is_irrelevant_witness :
  let raw1 := pyq "{'id':1,'method':'ping'}" ++ [10%N] in
  let raw2 := pyq "   {'id':1,'method':'ping'} " ++ [13; 10]%N in
  let w := [Demo.ok (pyq "{'id':1,'result':{}}")] in
  posts (iter_events (iteration Demo.rt Demo.cfg None raw1 w))
  = posts (iter_events (iteration Demo.rt Demo.cfg None raw2 w))
  /\ prints (iter_events (iteration Demo.rt Demo.cfg None raw1 w))
     = prints (iter_events (iteration Demo.rt Demo.cfg None raw2 w)).
Proof.
  intros raw1 raw2 w.
  destruct (surrounding_whitespace_is_irrelevant Demo.rt Demo.cfg None
              raw1 raw2 w) as (Hp & Hq & _);
    [discriminate | discriminate | reflexivity |].
  split; assumption.
Defined.

(** ** Counting what a run does *)

Section Counting.

Context {World : Type} (rt : runtime World).

Lemma iteration_at_most_one cfg sid raw w :
  (length (posts (iter_events (iteration rt cfg sid raw w))) <= 1)%nat
  /\ (length (prints (iter_events (iteration rt cfg sid raw w))) <= 1)%nat.
Proof.
  rewrite posts_iteration, prints_iteration. unfold iteration_output.
  destruct (truthy (strip raw)); [|simpl; lia].
  destruct (extract_request_id rt (strip raw)); [|simpl; lia].
  destruct (encode_utf8 (strip raw)) as [body|]; [|simpl; lia].
  split; [simpl; lia|].
  destruct ((session_post rt w (build_request cfg sid body)).1) as [r|e];
    [|simpl; lia].
  unfold response_output.
  destruct (400 <=? status_code r);
    [|destruct (truthy (resp_text r));
      [destruct (stdout_encode rt (resp_text r))|]];
    simpl; lia.
Qed.

Lemma iteration_break_sends_nothing cfg sid w :
  posts (iter_events (iteration rt cfg sid [] w)) = []
  /\ prints (iter_events (iteration rt cfg sid [] w)) = [].
Proof. rewrite posts_iteration, prints_iteration. split; reflexivity. Qed.

End Counting.

(** X3.  The loop never sends more requests, and never completes more
    [print] calls, than it was given lines of input: each line accounts for
    at most one request and at most one output unit (a response text, which
    may itself hold newlines, or an error reply). *)
Theorem loop_output_bounded_by_input {World : Type} (rt : runtime World)
    (cfg : config) (stdin : list str) :
  forall (sid : option str) (w : World),
    (length (posts (bridge_loop rt cfg sid stdin w).1) <= length stdin)%nat
    /\ (length (prints (bridge_loop rt cfg sid stdin w).1)
        <= length stdin)%nat.
Proof.
  induction stdin as [|raw rest IH]; intros sid w; cbn [bridge_loop].
  - pose proof (iteration_break_sends_nothing rt cfg sid w) as [Hp Hq].
    unfold iter_events in Hp, Hq.
    destruct (iteration rt cfg sid [] w) as [[[ev sid'] w'] ctl].
    cbn [fst] in *. rewrite posts_app, prints_app, Hp, Hq, posts_log,
                      prints_log. simpl. lia.
  - pose proof (iteration_at_most_one rt cfg sid raw w) as [Hp Hq].
    unfold iter_events in Hp, Hq.
    destruct (iteration rt cfg sid raw w) as [[[ev sid'] w'] ctl].
    cbn [fst] in *. destruct ctl.
    + specialize (IH sid' w').
      destruct (bridge_loop rt cfg sid' rest w') as [evs st].
      cbn [fst] in *. rewrite posts_app, prints_app, !length_app.
      simpl. lia.
    + cbn [fst]. rewrite posts_app, prints_app, !length_app, posts_log,
                   prints_log. simpl. lia.
    + cbn [fst]. simpl. lia.
Qed.

(** ** The requests of a run *)

Lemma bridge_loop_posts {World : Type} (rt : runtime World) (cfg : config)
    (stdin : list str) :
  forall (sid : option str) (w : World) (rq : request),
    HttpPost rq ∈ (bridge_loop rt cfg sid stdin w).1 ->
    exists sid' body, rq = build_request cfg sid' body.
Proof.
  assert (Hit : forall sid raw w rq,
             HttpPost rq ∈ iter_events (iteration rt cfg sid raw w) ->
             exists sid' body, rq = build_request cfg sid' body).
  { intros sid raw w rq. rewrite elem_of_posts, posts_iteration.
    destruct (truthy (strip raw)); [|rewrite elem_of_nil; tauto].
    destruct (extract_request_id rt (strip raw));
      [|rewrite elem_of_nil; tauto].
    destruct (encode_utf8 (strip raw)) as [body|];
      [|rewrite elem_of_nil; tauto].
    rewrite elem_of_cons, elem_of_nil. intros [->|[]]. eauto. }
  induction stdin as [|raw rest IH]; intros sid w rq; cbn [bridge_loop].
  - specialize (Hit sid [] w rq). unfold iter_events in Hit.
    destruct (iteration rt cfg sid [] w) as [[[ev sid'] w'] ctl].
    cbn [fst] in *. rewrite elem_of_app. intros [H|H]; [auto|].
    apply elem_of_posts in H. rewrite posts_log in H.
    apply elem_of_nil in H. tauto.
  - specialize (Hit sid raw w rq). unfold iter_events in Hit.
    destruct (iteration rt cfg sid raw w) as [[[ev sid'] w'] ctl].
    cbn [fst] in *. destruct ctl.
    + specialize (IH sid' w' rq).
      destruct (bridge_loop rt cfg sid' rest w') as [evs st]. cbn [fst] in *.
      rewrite elem_of_app. intros [H|H]; auto.
    + cbn [fst]. rewrite elem_of_app. intros [H|H]; [auto|].
      apply elem_of_posts in H. rewrite posts_log in H.
      apply elem_of_nil in H. tauto.
    + cbn [fst]. auto.
Qed.

Lemma call_headers_only_session (sid : option str) (name : string) :
  is_Some (call_headers sid !! name) -> name = "Mcp-Session-Id".
Proof.
  unfold call_headers. intros [v Hv].
  destruct sid as [t|]; [destruct (truthy t)|].
  - apply lookup_singleton_Some in Hv. symmetry. tauto.
  - rewrite lookup_empty in Hv. discriminate.
  - rewrite lookup_empty in Hv. discriminate.
Qed.

(** X4.  Every request of a run is made by a script that found a non-empty
    credential and an integer timeout, and has the same shape: it goes to
    [http://<host>:<port>/mcp/<credential>] with host and port defaulting to
    [localhost] and [8080], uses that timeout, relies on the session
    defaults [Content-Type] and [Accept] set to [application/json], and
    carries no header of its own other than [Mcp-Session-Id]. *)
Theorem every_request_has_configured_shape {World : Type}
    (rt : runtime World) (env : gmap string str) (stdin : list str)
    (w : World) (rq : request) :
  HttpPost rq ∈ (main rt env stdin w).1 ->
  exists (key : str) (timeout : Z),
    env !! "MCP_API_KEY" = Some key
    /\ key <> []
    /\ py_int rt (default (py "30") (env !! "MCP_TIMEOUT")) = Some timeout
    /\ req_url rq
       = py "http://" ++ default (py "localhost") (env !! "MCP_HOST")
         ++ py ":" ++ default (py "8080") (env !! "MCP_PORT")
         ++ py "/mcp/" ++ key
    /\ req_timeout rq = timeout
    /\ sess_headers rq !! "Content-Type" = Some (py "application/json")
    /\ sess_headers rq !! "Accept" = Some (py "application/json")
    /\ (forall name, is_Some (req_headers rq !! name) ->
                     name = "Mcp-Session-Id").
Proof.
  unfold main.
  destruct (py_int rt _) as [timeout|] eqn:Hint;
    [|cbn [fst]; rewrite elem_of_nil; tauto].
  destruct (env !! "MCP_API_KEY") as [key|] eqn:Hkey;
    [|cbn [fst]; rewrite elem_of_cons, elem_of_nil; intros [[=]|[]]].
  destruct (truthy key) eqn:Htruthy;
    [|cbn [fst]; rewrite elem_of_cons, elem_of_nil; intros [[=]|[]]].
  set (cfg := Config _ _ _ _ _).
  pose proof (bridge_loop_posts rt cfg stdin None w rq) as Hloop.
  destruct (bridge_loop rt cfg None stdin w) as [evs st]. cbn [fst] in *.
  rewrite elem_of_app. intros [H|H].
  { apply elem_of_posts in H. unfold startup_log in H.
    rewrite posts_app, !posts_log in H. apply elem_of_nil in H. tauto. }
  destruct (Hloop H) as (sid' & body & ->).
  exists key, timeout. split; [reflexivity|]. split.
  { intros ->. discriminate. }
  split; [reflexivity|]. split; [reflexivity|]. split; [reflexivity|].
  split; [reflexivity|]. split; [reflexivity|].
  intros name. apply call_headers_only_session.
Qed.

Lemma every_request_has_configured_shape_witness :
  let env : gmap string str :=
    {[ "MCP_API_KEY" := py "k3y"; "MCP_PORT" := py "9090";
       "MCP_TIMEOUT" := py "5" ]} in
  let stdin := [pyq "{'id':1,'method':'ping'}" ++ [10%N]] in
  let rq := Request (py "http://localhost:9090/mcp/k3y")
              (map mkbyte (pyq "{'id':1,'method':'ping'}")) ∅ 5
              session_headers in
  HttpPost rq ∈ (main Demo.rt env stdin []).1
  /\ exists (key : str) (timeout : Z),
       env !! "MCP_API_KEY" = Some key
       /\ key <> []
       /\ py_int Demo.rt (default (py "30") (env !! "MCP_TIMEOUT"))
          = Some timeout
       /\ req_url rq
          = py "http://" ++ default (py "localhost") (env !! "MCP_HOST")
            ++ py ":" ++ default (py "8080") (env !! "MCP_PORT")
            ++ py "/mcp/" ++ key
       /\ req_timeout rq = timeout
       /\ sess_headers rq !! "Content-Type" = Some (py "application/json")
       /\ sess_headers rq !! "Accept" = Some (py "application/json")
       /\ (forall name, is_Some (req_headers rq !! name) ->
                        name = "Mcp-Session-Id").
Proof.
  intros env stdin rq.
  assert (Hin : HttpPost rq ∈ (main Demo.rt env stdin []).1).
  { apply elem_of_posts. vm_compute. apply list_elem_of_here. }
  split; [exact Hin|].
  exact (every_request_has_configured_shape Demo.rt env stdin [] rq Hin).
Defined.

(** ** What a run prints through [json.dumps] *)

(** X5.  Every dict a run serializes itself is a JSON-RPC 2.0 error object:
    members [jsonrpc] = ["2.0"], [id], and [error] with an integer [code]
    and a [message].  The code is -32000, or -32600 with a null id for the
    reply about the missing credential. *)
Theorem printed_dicts_are_jsonrpc_errors {World : Type} (rt : runtime World)
    (env : gmap string str) (stdin : list str) (w : World) (v : json) :
  Print (Dumps v) ∈ (main rt env stdin w).1 ->
  exists id code msg,
    v = JObj [ (py "jsonrpc", JStr (py "2.0"));
               (py "id", id);
               (py "error", JObj [ (py "code", JInt code);
                                   (py "message", JStr msg) ]) ]
    /\ (code = -32000 \/ (code = -32600 /\ id = JNull)).
Proof.
  unfold main.
  destruct (py_int rt _) as [timeout|];
    [|cbn [fst]; rewrite elem_of_nil; tauto].
  assert (Hmissing : Print (Dumps v) ∈ [Print (Dumps missing_key_reply)] ->
                     exists id code msg,
                       v = error_reply id code msg
                       /\ (code = -32000 \/ (code = -32600 /\ id = JNull))).
  { rewrite elem_of_cons, elem_of_nil. intros [[= ->]|[]].
    unfold missing_key_reply. eauto 10. }
  destruct (env !! "MCP_API_KEY") as [key|]; [|exact Hmissing].
  destruct (truthy key); [|exact Hmissing].
  set (cfg := Config _ _ _ _ _).
  pose proof (bridge_loop_dumps rt cfg stdin None w v) as Hloop.
  destruct (bridge_loop rt cfg None stdin w) as [evs st]. cbn [fst] in *.
  rewrite elem_of_app. intros [H|H].
  - apply elem_of_prints in H. unfold startup_log in H.
    rewrite prints_app, !prints_log in H. apply elem_of_nil in H. tauto.
  - destruct (Hloop H) as (id & msg & ->). exists id, (-32000), msg.
    split; [reflexivity | left; reflexivity].
Qed.

Lemma printed_dicts_are_jsonrpc_errors_witness :
  let stdin := [pyq "{'id':'a-1','method':'ping'}" ++ [10%N]] in
  let v := error_reply (JStr (py "a-1")) (-32000) (py "Request timed out") in
  Print (Dumps v) ∈ (main Demo.rt Demo.env_with_key stdin [Demo.times_out]).1
  /\ exists id code msg,
       v = JObj [ (py "jsonrpc", JStr (py "2.0"));
                  (py "id", id);
                  (py "error", JObj [ (py "code", JInt code);
                                      (py "message", JStr msg) ]) ]
       /\ (code = -32000 \/ (code = -32600 /\ id = JNull)).
Proof.
  intros stdin v.
  assert (Hin : Print (Dumps v)
                ∈ (main Demo.rt Demo.env_with_key stdin [Demo.times_out]).1).
  { apply elem_of_prints. vm_compute. apply list_elem_of_here. }
  split; [exact Hin|].
  exact (printed_dicts_are_jsonrpc_errors Demo.rt Demo.env_with_key stdin
           [Demo.times_out] v Hin).
Defined.

(** ** How a run ends *)

Lemma bridge_loop_end {World : Type} (rt : runtime World) (cfg : config)
    (stdin : list str) :
  forall (sid : option str) (w : World),
    match (bridge_loop rt cfg sid stdin w).2 with
    | Exit c =>
        c = 0
        /\ exists pre, reads (bridge_loop rt cfg sid stdin w).1 = pre ++ [[]]
    | Traceback c =>
        exists raw,
          raw ∈ stdin
          /\ truthy (strip raw) = true
          /\ extract_request_id rt (strip raw) = inr c
    end.
Proof.
  induction stdin as [|raw rest IH]; intros sid w; cbn [bridge_loop].
  - pose proof (reads_iteration rt cfg sid [] w) as Hr.
    unfold iter_events in Hr.
    destruct (iteration rt cfg sid [] w) as [[[ev sid'] w'] ctl].
    cbn [fst snd] in *. split; [reflexivity|]. exists [].
    rewrite reads_app, Hr, reads_log. reflexivity.
  - pose proof (reads_iteration rt cfg sid raw w) as Hr.
    pose proof (iteration_control rt cfg sid raw w) as Hc.
    unfold iter_events in Hr. unfold iter_control in Hc.
    destruct (iteration rt cfg sid raw w) as [[[ev sid'] w'] ctl].
    cbn [fst snd] in *. destruct ctl.
    + specialize (IH sid' w').
      destruct (bridge_loop rt cfg sid' rest w') as [evs st].
      cbn [fst snd] in *. destruct st as [c|c].
      * destruct IH as [-> [pre Hpre]]. split; [reflexivity|].
        exists (raw :: pre). rewrite reads_app, Hr, Hpre. reflexivity.
      * destruct IH as (raw' & Hin & Hrest). exists raw'.
        split; [apply elem_of_cons; right; exact Hin | exact Hrest].
    + cbn [fst snd]. split; [reflexivity|]. exists [].
      rewrite reads_app, Hr, reads_log.
      destruct (truthy raw) eqn:Hraw.
      * destruct (truthy (strip raw)); [|discriminate].
        destruct (extract_request_id rt (strip raw)); discriminate.
      * destruct raw; [reflexivity | discriminate].
    + cbn [fst snd]. exists raw. split; [apply list_elem_of_here|].
      destruct (truthy raw); [|discriminate].
      destruct (truthy (strip raw)); [|discriminate].
      destruct (extract_request_id rt (strip raw)) as [id|c'];
        [discriminate|]. injection Hc as ->. auto.
Qed.

(** X6.  A run that ends otherwise than by an uncaught exception ends in
    one of two ways.  Either it reaches the end of the script (status 0),
    and then the last thing read from standard input was the end of the
    input; or it calls [sys.exit(1)], and then the credential was unset or
    empty, the reply saying so is all that happened, and no input was
    read. *)
Theorem exit_status_explained {World : Type} (rt : runtime World)
    (env : gmap string str) (stdin : list str) (w : World) (c : Z) :
  (main rt env stdin w).2 = Exit c ->
  (c = 0 /\ exists pre, reads (main rt env stdin w).1 = pre ++ [[]])
  \/ (c = 1
      /\ truthy_opt (env !! "MCP_API_KEY") = false
      /\ (main rt env stdin w).1 = [Print (Dumps missing_key_reply)]).
Proof.
  unfold main.
  destruct (py_int rt _) as [timeout|]; [|discriminate].
  destruct (env !! "MCP_API_KEY") as [key|];
    [|intros [= <-]; right; auto].
  cbn [truthy_opt].
  destruct (truthy key); [|intros [= <-]; right; auto].
  set (cfg := Config _ _ _ _ _).
  pose proof (bridge_loop_end rt cfg stdin None w) as Hend.
  destruct (bridge_loop rt cfg None stdin w) as [evs st]. cbn [fst snd] in *.
  intros ->. destruct Hend as [-> [pre Hpre]]. left.
  split; [reflexivity|]. exists pre. unfold startup_log.
  rewrite !reads_app, !reads_log. exact Hpre.
Qed.

Lemma exit_status_explained_witness :
  let stdin := [pyq "{'id':1,'method':'ping'}" ++ [10%N]] in
  let run := main Demo.rt Demo.env_with_key stdin [Demo.times_out] in
  run.2 = Exit 0
  /\ exists pre, reads run.1 = pre ++ [[]].
Proof.
  intros stdin run. split; [reflexivity|].
  destruct (exit_status_explained Demo.rt Demo.env_with_key stdin
              [Demo.times_out] 0 eq_refl) as [[_ Hpre]|[Hone _]].
  - exact Hpre.
  - discriminate.
Defined.

(** ** Lines that cannot be encoded *)

Lemma utf8_char_surrogate (c : N) : is_surrogate c = true -> utf8_char c = None.
Proof.
  unfold is_surrogate, utf8_char. intros H.
  apply andb_prop in H as [Hlo Hhi].
  apply N.leb_le in Hlo. apply N.leb_le in Hhi.
  destruct (N.ltb_spec c 128); [lia|].
  destruct (N.ltb_spec c 2048); [lia|].
  destruct (N.ltb_spec c 65536); [|lia].
  destruct (N.leb_spec 55296 c); [|lia].
  destruct (N.leb_spec c 57343); [|lia].
  reflexivity.
Qed.

Lemma encode_utf8_surrogate (s : str) (c : N) :
  c ∈ s -> is_surrogate c = true -> encode_utf8 s = None.
Proof.
  intros Hin Hc. induction s as [|a s IH]; [inversion Hin|].
  apply elem_of_cons in Hin as [<-|Hin]; simpl.
  - rewrite (utf8_char_surrogate c Hc). reflexivity.
  - rewrite (IH Hin). destruct (utf8_char a); reflexivity.
Qed.

(** X8.  With debugging off, a request whose text contains a surrogate code
    point is never sent: encoding it fails inside the [try] statement, the
    last [except] clause prints one error reply (extracted id, -32000, the
    description of the encoding error), the session id is kept and the loop
    goes on.  (With debugging on, line 83 writes the text to the log before
    the [try] statement.) *)
Theorem unencodable_line_is_reported {World : Type} (rt : runtime World)
    (cfg : config) (sid : option str) (raw : str) (rest : list str)
    (w : World) (c : N) (id : json) :
  DEBUG cfg = false ->
  c ∈ strip raw ->
  is_surrogate c = true ->
  extract_request_id rt (strip raw) = inl id ->
  posts (iter_events (iteration rt cfg sid raw w)) = []
  /\ prints (iter_events (iteration rt cfg sid raw w))
     = [Dumps (error_reply id (-32000) (encode_error_str rt (strip raw)))]
  /\ iter_session (iteration rt cfg sid raw w) = sid
  /\ iter_world (iteration rt cfg sid raw w) = w
  /\ proceeds_to_next rt cfg sid raw rest w.
Proof.
  intros _ Hin Hc Hid.
  pose proof (encode_utf8_surrogate _ _ Hin Hc) as Henc.
  assert (Hline : truthy (strip raw) = true).
  { destruct (strip raw); [inversion Hin | reflexivity]. }
  pose proof (iteration_state rt cfg sid raw w) as Hst.
  rewrite Hline, Hid, Henc in Hst. injection Hst as Hs Hw.
  rewrite posts_iteration, prints_iteration. unfold iteration_output.
  rewrite Hline, Hid, Henc. repeat split; auto.
  apply bridge_loop_continue. rewrite iteration_control.
  rewrite (truthy_strip _ Hline), Hline, Hid. reflexivity.
Qed.

Lemma unencodable_line_is_reported_witness :
  let raw := pyq "{'id':4,'text':'" ++ [56448%N] ++ pyq "'}" ++ [10%N] in
  let it := iteration Demo.rt Demo.cfg (Some (py "abc")) raw
              [Demo.ok (py "unused")] in
  posts (iter_events it) = []
  /\ prints (iter_events it)
     = [Dumps (error_reply (JInt 4) (-32000)
                 (Demo.encode_error (strip raw)))]
  /\ iter_session it = Some (py "abc").
Proof.
  intros raw it.
  destruct (unencodable_line_is_reported Demo.rt Demo.cfg (Some (py "abc"))
              raw [] [Demo.ok (py "unused")] 56448%N (JInt 4))
    as (Hp & Hq & Hs & _).
  - reflexivity.
  - vm_compute. do 16 apply list_elem_of_further. apply list_elem_of_here.
  - reflexivity.
  - reflexivity.
  - auto.
Defined.

(** ** Where the credential goes *)

Section Credential.

Context {World : Type} (rt : runtime World) (good : World -> Prop).

(** In the states [good] of the world behind the endpoint, the URL a
    request is sent to shows at most in the description of a timeout or of a
    connection error. *)
Hypothesis url_shows_in_descriptions_only :
  forall w rq u,
    good w ->
    same_outcome (session_post rt w (set_url u rq)).1
                 (session_post rt w rq).1
    /\ (session_post rt w (set_url u rq)).2 = (session_post rt w rq).2
    /\ good (session_post rt w rq).2.

Lemma bridge_loop_cons cfg sid raw rest w :
  bridge_loop rt cfg sid (raw :: rest) w
  = match iter_control (iteration rt cfg sid raw w) with
    | Continue =>
        (iter_events (iteration rt cfg sid raw w)
         ++ (bridge_loop rt cfg (iter_session (iteration rt cfg sid raw w))
               rest (iter_world (iteration rt cfg sid raw w))).1,
         (bridge_loop rt cfg (iter_session (iteration rt cfg sid raw w))
            rest (iter_world (iteration rt cfg sid raw w))).2)
    | Break =>
        (iter_events (iteration rt cfg sid raw w)
         ++ log cfg (py "=== Proxy exiting ==="), Exit 0)
    | Propagate c => (iter_events (iteration rt cfg sid raw w), Traceback c)
    end.
Proof.
  cbn [bridge_loop]. unfold iter_control, iter_events, iter_session,
    iter_world.
  destruct (iteration rt cfg sid raw w) as [[[ev sid'] w'] ctl].
  cbn [fst snd]. destruct ctl; try reflexivity.
  destruct (bridge_loop rt cfg sid' rest w'). reflexivity.
Qed.

Lemma iteration_with_key cfg k sid raw w :
  good w ->
  prints (iter_events (iteration rt (with_key k cfg) sid raw w))
  = prints (iter_events (iteration rt cfg sid raw w))
  /\ map (set_url [])
       (posts (iter_events (iteration rt (with_key k cfg) sid raw w)))
     = map (set_url []) (posts (iter_events (iteration rt cfg sid raw w)))
  /\ iter_session (iteration rt (with_key k cfg) sid raw w)
     = iter_session (iteration rt cfg sid raw w)
  /\ iter_world (iteration rt (with_key k cfg) sid raw w)
     = iter_world (iteration rt cfg sid raw w)
  /\ iter_control (iteration rt (with_key k cfg) sid raw w)
     = iter_control (iteration rt cfg sid raw w)
  /\ good (iter_world (iteration rt cfg sid raw w)).
Proof.
  intros Hgood.
  pose proof (iteration_state rt (with_key k cfg) sid raw w) as Hs1.
  pose proof (iteration_state rt cfg sid raw w) as Hs2.
  rewrite !prints_iteration, !posts_iteration, !iteration_control.
  unfold iteration_output.
  destruct (truthy (strip raw)).
  2:{ injection Hs1 as -> ->. injection Hs2 as -> ->. auto 10. }
  destruct (extract_request_id rt (strip raw)) as [id|c].
  2:{ injection Hs1 as -> ->. injection Hs2 as -> ->. auto 10. }
  destruct (encode_utf8 (strip raw)) as [body|].
  2:{ injection Hs1 as -> ->. injection Hs2 as -> ->. auto 10. }
  change (build_request (with_key k cfg) sid body)
    with (set_url (MCP_URL (with_key k cfg)) (build_request cfg sid body))
    in *.
  destruct (url_shows_in_descriptions_only w (build_request cfg sid body)
              (MCP_URL (with_key k cfg)) Hgood) as (Hsame & Hw & Hg).
  injection Hs1 as -> ->. injection Hs2 as -> ->. rewrite Hw.
  destruct ((session_post rt w
               (set_url (MCP_URL (with_key k cfg))
                  (build_request cfg sid body))).1) as [r1|e1];
    destruct ((session_post rt w (build_request cfg sid body)).1)
      as [r2|e2]; cbn [same_outcome] in Hsame; try contradiction.
  - subst r2. auto 10.
  - rewrite Hsame. auto 10.
Qed.

Lemma bridge_loop_with_key cfg k stdin :
  forall sid w,
    good w ->
    prints (bridge_loop rt (with_key k cfg) sid stdin w).1
    = prints (bridge_loop rt cfg sid stdin w).1
    /\ map (set_url []) (posts (bridge_loop rt (with_key k cfg) sid stdin w).1)
       = map (set_url []) (posts (bridge_loop rt cfg sid stdin w).1)
    /\ (bridge_loop rt (with_key k cfg) sid stdin w).2
       = (bridge_loop rt cfg sid stdin w).2.
Proof.
  induction stdin as [|raw rest IH]; intros sid w Hgood.
  - cbn [bridge_loop]. unfold iteration. cbn [truthy negb fst snd].
    change (log (with_key k cfg)) with (log cfg). auto.
  - rewrite !bridge_loop_cons.
    destruct (iteration_with_key cfg k sid raw w Hgood)
      as (Hp & Hq & -> & -> & -> & Hg).
    change (log (with_key k cfg)) with (log cfg).
    destruct (iter_control (iteration rt cfg sid raw w)); cbn [fst snd].
    + destruct (IH (iter_session (iteration rt cfg sid raw w))
                  (iter_world (iteration rt cfg sid raw w)) Hg)
        as (IHp & IHq & IHs).
      rewrite !prints_app, !posts_app, !map_app, Hp, Hq, IHp, IHq, IHs.
      auto.
    + rewrite !prints_app, !posts_app, !map_app, Hp, Hq. auto.
    + auto.
Qed.


End Credential.


(** ** Requests follow the input *)

(** X11.  With debugging off, requests are sent in the order of the input,
    one per line, none twice and none skipped: while the id extraction
    raises on no line, the bodies of the requests of the loop are exactly the
    encoded texts of the lines that are neither blank nor impossible to
    encode, in input order, whatever the endpoint answers in between. *)
Theorem request_bodies_follow_input {World : Type} (rt : runtime World)
    (cfg : config) (stdin : list str) :
  DEBUG cfg = false ->
  Forall (fun raw : str => raw <> []) stdin ->
  Forall (fun raw : str =>
            truthy (strip raw) = true ->
            exists id, extract_request_id rt (strip raw) = inl id) stdin ->
  forall (sid : option str) (w : World),
    map req_data (posts (bridge_loop rt cfg sid stdin w).1)
    = omap forwarded_body stdin.
Proof.
  intros _.
  induction stdin as [|raw rest IH]; intros Hne Hok sid w.
  - cbn [bridge_loop]. unfold iteration. cbn [truthy negb fst].
    trace_simpl. reflexivity.
  - apply Forall_cons in Hne as [Hraw Hne].
    apply Forall_cons in Hok as [Hid Hok].
    assert (Hctl : iter_control (iteration rt cfg sid raw w) = Continue).
    { rewrite iteration_control. destruct raw; [congruence|]. cbn [truthy].
      destruct (truthy (strip (n :: raw))); [|reflexivity].
      destruct (Hid eq_refl) as [id ->]. reflexivity. }
    pose proof (bridge_loop_continue rt cfg sid raw rest w Hctl) as Hnext.
    unfold proceeds_to_next in Hnext. cbv zeta in Hnext. rewrite Hnext.
    cbn [fst]. rewrite posts_app, map_app, (IH Hne Hok), posts_iteration.
    cbn [omap list_omap]. generalize (omap forwarded_body rest). intros tl.
    unfold forwarded_body.
    destruct (truthy (strip raw)); [|reflexivity].
    destruct (Hid eq_refl) as [id ->].
    destruct (encode_utf8 (strip raw)); reflexivity.
Qed.

Lemma request_bodies_follow_input_witness :
  let stdin := [pyq "{'id':1,'method':'a'}" ++ [10%N];
                [32; 10]%N;
                py "not json" ++ [10%N];
                pyq " {'id':2,'method':'b'}" ++ [13; 10]%N] in
  map req_data
    (posts (bridge_loop Demo.rt Demo.cfg None stdin [Demo.times_out]).1)
  = [map mkbyte (pyq "{'id':1,'method':'a'}");
     map mkbyte (py "not json");
     map mkbyte (pyq "{'id':2,'method':'b'}")].
Proof.
  intros stdin.
  rewrite (request_bodies_follow_input Demo.rt Demo.cfg stdin).
  - reflexivity.
  - reflexivity.
  - repeat constructor; discriminate.
  - repeat constructor; intros _; eexists; vm_compute; reflexivity.
Defined.

(** ** Where session ids come from *)

Lemma attached_token_origin (pre suf : list event) (rq : request) (v : str) :
  forall held,
    attaches_nonempty_token held (pre ++ HttpPost rq :: suf) ->
    req_headers rq !! "Mcp-Session-Id" = Some v ->
    v <> []
    /\ (held = Some v
        \/ exists r,
             HttpResult (Responds r) ∈ pre
             /\ resp_headers r !! "Mcp-Session-Id" = Some v).
Proof.
  induction pre as [|e pre IH]; intros held; cbn [app attaches_nonempty_token].
  - intros [Hh _] Hv. rewrite Hv in Hh.
    destruct held as [t|]; cbn [truthy_opt] in Hh; [|discriminate].
    destruct t; cbn [truthy] in Hh; [discriminate|].
    injection Hh as ->. split; [discriminate | left; reflexivity].
  - intros [_ Hrest] Hv. destruct (IH _ Hrest Hv) as [Hne [Hheld|(r & Hin & Hr)]].
    + split; [exact Hne|].
      destruct e as [| | |[r|x]|]; cbn [token_after] in Hheld; auto.
      destruct (resp_headers r !! "Mcp-Session-Id") as [v'|] eqn:Hr; auto.
      right. exists r. split; [apply list_elem_of_here | congruence].
    + split; [exact Hne|]. right. exists r.
      split; [apply list_elem_of_further; exact Hin | exact Hr].
Qed.

(** X12.  The script never makes up a session id.  Whenever a request of a
    run carries the [Mcp-Session-Id] header, its value is not empty and is
    the value of that header in a response received earlier in the same
    run. *)
Theorem session_id_comes_from_server {World : Type} (rt : runtime World)
    (env : gmap string str) (stdin : list str) (w : World)
    (pre suf : list event) (rq : request) (v : str) :
  (main rt env stdin w).1 = pre ++ HttpPost rq :: suf ->
  req_headers rq !! "Mcp-Session-Id" = Some v ->
  v <> []
  /\ exists r,
       HttpResult (Responds r) ∈ pre
       /\ resp_headers r !! "Mcp-Session-Id" = Some v.
Proof.
  intros Htr Hv.
  assert (Hmon : attaches_nonempty_token None (main rt env stdin w).1).
  { unfold main.
    destruct (py_int rt _) as [timeout|]; [|exact I].
    destruct (env !! "MCP_API_KEY") as [key|]; [|simpl; auto].
    destruct (truthy key); [|simpl; auto].
    set (cfg := Config _ _ _ _ _).
    pose proof (bridge_loop_session rt cfg stdin None w) as H.
    destruct (bridge_loop rt cfg None stdin w) as [evs st]. cbn [fst] in *.
    apply attaches_nonempty_token_app.
    destruct (quiet_trace None (startup_log cfg)) as [Ha Hh];
      [unfold startup_log; trace_simpl; reflexivity ..|].
    rewrite Hh. auto. }
  rewrite Htr in Hmon.
  destruct (attached_token_origin pre suf rq v None Hmon Hv)
    as [Hne [Habs|Hr]]; [discriminate|auto].
Qed.

Lemma session_id_comes_from_server_witness :
  let stdin := [pyq "{'id':1,'method':'initialize'}" ++ [10%N];
                pyq "{'id':2,'method':'ping'}" ++ [10%N]] in
  let w := [Demo.ok_with_session (py "sess-42") (pyq "{'id':1,'result':{}}");
            Demo.ok (pyq "{'id':2,'result':{}}")] in
  let tr := (main Demo.rt Demo.env_with_key stdin w).1 in
  exists rq,
    tr = take 5 tr ++ HttpPost rq :: drop 6 tr
    /\ req_headers rq !! "Mcp-Session-Id" = Some (py "sess-42")
    /\ exists r,
         HttpResult (Responds r) ∈ take 5 tr
         /\ resp_headers r !! "Mcp-Session-Id" = Some (py "sess-42").
Proof.
  intros stdin w tr.
  exists (build_request Demo.cfg (Some (py "sess-42"))
            (map mkbyte (pyq "{'id':2,'method':'ping'}"))).
  assert (Hsplit : tr = take 5 tr
                        ++ HttpPost
                             (build_request Demo.cfg (Some (py "sess-42"))
                                (map mkbyte (pyq "{'id':2,'method':'ping'}")))
                        :: drop 6 tr).
  { vm_compute. reflexivity. }
  assert (Hhdr : req_headers
                   (build_request Demo.cfg (Some (py "sess-42"))
                      (map mkbyte (pyq "{'id':2,'method':'ping'}")))
                 !! "Mcp-Session-Id" = Some (py "sess-42")).
  { vm_compute. reflexivity. }
  split; [exact Hsplit|]. split; [exact Hhdr|].
  exact (proj2 (session_id_comes_from_server Demo.rt Demo.env_with_key stdin
                  w _ _ _ _ Hsplit Hhdr)).
Defined.

(** ** What a run prints as it is *)

Lemma iteration_text {World : Type} (rt : runtime World) (cfg : config)
    (sid : option str) (raw : str) (w : World) (s : str) :
  Print (Text s) ∈ iter_events (iteration rt cfg sid raw w) ->
  s <> []
  /\ exists r,
       HttpResult (Responds r) ∈ iter_events (iteration rt cfg sid raw w)
       /\ resp_text r = s
       /\ status_code r < 400.
Proof.
  intros Hin. pose proof Hin as Hp.
  rewrite elem_of_prints, prints_iteration in Hp. unfold iteration_output in Hp.
  destruct (truthy (strip raw)) eqn:Hline;
    [|apply elem_of_nil in Hp; tauto].
  destruct (extract_request_id rt (strip raw)) as [id|c] eqn:Hid;
    [|apply elem_of_nil in Hp; tauto].
  destruct (encode_utf8 (strip raw)) as [body|] eqn:Henc.
  2:{ apply elem_of_cons in Hp as [[=]|Hp]. apply elem_of_nil in Hp. tauto. }
  destruct ((session_post rt w (build_request cfg sid body)).1) as [r|e]
    eqn:Hres.
  2:{ apply elem_of_cons in Hp as [[=]|Hp]. apply elem_of_nil in Hp. tauto. }
  unfold response_output in Hp.
  destruct (400 <=? status_code r) eqn:Hst.
  { apply elem_of_cons in Hp as [[=]|Hp]. apply elem_of_nil in Hp. tauto. }
  destruct (truthy (resp_text r)) eqn:Htext;
    [|apply elem_of_nil in Hp; tauto].
  destruct (stdout_encode rt (resp_text r)).
  2:{ apply elem_of_cons in Hp as [[=]|Hp]. apply elem_of_nil in Hp. tauto. }
  apply elem_of_cons in Hp as [[= ->]|Hp]; [|apply elem_of_nil in Hp; tauto].
  split.
  { intros H. rewrite H in Htext. discriminate. }
  exists r. split; [|split; [reflexivity | apply Z.leb_gt in Hst; lia]].
  rewrite (iteration_forwarded rt cfg sid raw w id body Hline Hid Henc), Hres.
  unfold iter_events. cbn [fst]. apply elem_of_app. right.
  apply list_elem_of_further, list_elem_of_here.
Qed.

(** Every event of the loop other than the closing log line belongs to one
    of its iterations, all of whose events are in the trace of the loop. *)
Lemma bridge_loop_event_inv {World : Type} (rt : runtime World)
    (cfg : config) (stdin : list str) :
  forall (sid : option str) (w : World) (e : event),
    e ∈ (bridge_loop rt cfg sid stdin w).1 ->
    e = LogWrite (py "=== Proxy exiting ===")
    \/ exists sid' raw w',
         e ∈ iter_events (iteration rt cfg sid' raw w')
         /\ forall e',
              e' ∈ iter_events (iteration rt cfg sid' raw w') ->
              e' ∈ (bridge_loop rt cfg sid stdin w).1.
Proof.
  assert (Hlog : forall e, e ∈ log cfg (py "=== Proxy exiting ===") ->
                           e = LogWrite (py "=== Proxy exiting ===")).
  { intros e. unfold log. destruct (DEBUG cfg).
    - rewrite elem_of_cons, elem_of_nil. tauto.
    - rewrite elem_of_nil. tauto. }
  induction stdin as [|raw rest IH]; intros sid w e; cbn [bridge_loop].
  - destruct (iteration rt cfg sid [] w) as [[[ev sid'] w'] ctl] eqn:Hit.
    cbn [fst]. rewrite elem_of_app. intros [H|H]; [|left; auto].
    right. exists sid, [], w. rewrite Hit. unfold iter_events. cbn [fst].
    split; [exact H|]. intros e' He'. apply elem_of_app. left. exact He'.
  - destruct (iteration rt cfg sid raw w) as [[[ev sid'] w'] ctl] eqn:Hit.
    destruct ctl.
    + specialize (IH sid' w' e).
      destruct (bridge_loop rt cfg sid' rest w') as [evs st]. cbn [fst] in *.
      rewrite elem_of_app. intros [H|H].
      * right. exists sid, raw, w. rewrite Hit. unfold iter_events.
        cbn [fst]. split; [exact H|]. intros e' He'.
        apply elem_of_app. left. exact He'.
      * destruct (IH H) as [->|(s1 & r1 & w1 & Hin & Hall)]; [left; auto|].
        right. exists s1, r1, w1. split; [exact Hin|]. intros e' He'.
        apply elem_of_app. right. auto.
    + cbn [fst]. rewrite elem_of_app. intros [H|H]; [|left; auto].
      right. exists sid, raw, w. rewrite Hit. unfold iter_events. cbn [fst].
      split; [exact H|]. intros e' He'. apply elem_of_app. left. exact He'.
    + cbn [fst]. intros H. right. exists sid, raw, w. rewrite Hit.
      unfold iter_events. cbn [fst]. auto.
Qed.

(** X13.  The script prints no text of its own making.  Every line a run
    prints without going through [json.dumps] is the body, not empty, of a
    response with a status below 400 received in that run. *)
Theorem printed_text_is_a_received_body {World : Type} (rt : runtime World)
    (env : gmap string str) (stdin : list str) (w : World) (s : str) :
  Print (Text s) ∈ (main rt env stdin w).1 ->
  s <> []
  /\ exists r,
       HttpResult (Responds r) ∈ (main rt env stdin w).1
       /\ resp_text r = s
       /\ status_code r < 400.
Proof.
  unfold main.
  destruct (py_int rt _) as [timeout|];
    [|cbn [fst]; rewrite elem_of_nil; tauto].
  destruct (env !! "MCP_API_KEY") as [key|];
    [|cbn [fst]; rewrite elem_of_cons, elem_of_nil; intros [[=]|[]]].
  destruct (truthy key);
    [|cbn [fst]; rewrite elem_of_cons, elem_of_nil; intros [[=]|[]]].
  set (cfg := Config _ _ _ _ _).
  pose proof (bridge_loop_event_inv rt cfg stdin None w (Print (Text s)))
    as Hinv.
  destruct (bridge_loop rt cfg None stdin w) as [evs st]. cbn [fst] in *.
  rewrite elem_of_app. intros [H|H].
  { apply elem_of_prints in H. unfold startup_log in H.
    rewrite prints_app, !prints_log in H. apply elem_of_nil in H. tauto. }
  destruct (Hinv H) as [[=]|(sid' & raw & w' & Hin & Hall)].
  destruct (iteration_text rt cfg sid' raw w' s Hin)
    as (Hne & r & Hr & Htext & Hst).
  split; [exact Hne|]. exists r. split; [|auto].
  apply elem_of_app. right. auto.
Qed.

Lemma printed_text_is_a_received_body_witness :
  let stdin := [pyq "{'id':1,'method':'ping'}" ++ [10%N]] in
  let body := pyq "{'jsonrpc':'2.0','id':1,'result':{}}" in
  let tr := (main Demo.rt Demo.env_with_key stdin [Demo.ok body]).1 in
  Print (Text body) ∈ tr
  /\ body <> []
  /\ exists r,
       HttpResult (Responds r) ∈ tr
       /\ resp_text r = body
       /\ status_code r < 400.
Proof.
  intros stdin body tr.
  assert (Hin : Print (Text body) ∈ tr).
  { apply elem_of_prints. vm_compute. apply list_elem_of_here. }
  split; [exact Hin|].
  exact (printed_text_is_a_received_body Demo.rt Demo.env_with_key stdin
           [Demo.ok body] body Hin).
Defined.

(** ** What the log says about the end of a run *)

Section LogEnd.

Context {World : Type} (rt : runtime World).

Lemma iteration_propagate_events cfg sid raw w c :
  iter_control (iteration rt cfg sid raw w) = Propagate c ->
  iter_events (iteration rt cfg sid raw w)
  = log cfg (py "Waiting for input...")
    ++ [ReadLine raw]
    ++ log cfg (py "Got line: " ++ fmt_len raw ++ py " chars").
Proof.
  rewrite iteration_control. unfold iteration, iter_events.
  destruct (truthy raw); [|discriminate].
  destruct (truthy (strip raw)); [|discriminate].
  destruct (extract_request_id rt (strip raw)); [discriminate|].
  reflexivity.
Qed.

Lemma bridge_loop_last_log cfg stdin :
  DEBUG cfg = true ->
  forall sid w,
    match (bridge_loop rt cfg sid stdin w).2 with
    | Exit _ =>
        last (log_writes (bridge_loop rt cfg sid stdin w).1)
        = Some (py "=== Proxy exiting ===")
    | Traceback _ =>
        exists m,
          last (log_writes (bridge_loop rt cfg sid stdin w).1)
          = Some (py "Got line: " ++ m)
    end.
Proof.
  intros Hd.
  assert (Hexit : forall ev,
             last (log_writes (ev ++ log cfg (py "=== Proxy exiting ===")))
             = Some (py "=== Proxy exiting ===")).
  { intros ev. unfold log. rewrite Hd, log_writes_app. apply last_snoc. }
  induction stdin as [|raw rest IH]; intros sid w; cbn [bridge_loop].
  - destruct (iteration rt cfg sid [] w) as [[[ev sid'] w'] ctl].
    cbn [fst snd]. apply Hexit.
  - pose proof (iteration_propagate_events cfg sid raw w) as Hprop.
    unfold iter_control, iter_events in Hprop.
    destruct (iteration rt cfg sid raw w) as [[[ev sid'] w'] ctl].
    cbn [fst snd] in *. destruct ctl.
    + specialize (IH sid' w').
      destruct (bridge_loop rt cfg sid' rest w') as [evs st].
      cbn [fst snd] in *. rewrite log_writes_app, last_app.
      destruct st; [rewrite IH; reflexivity|].
      destruct IH as [m ->]. eauto.
    + cbn [fst snd]. apply Hexit.
    + cbn [fst snd]. rewrite (Hprop c eq_refl). unfold log. rewrite Hd.
      exists (fmt_len raw ++ py " chars"). reflexivity.
Qed.

End LogEnd.

(** X14.  With debugging on, the log tells whether the script stopped of
    its own accord: the last line of the log is [=== Proxy exiting ===]
    exactly when the run ended with status 0.  After a traceback or a
    missing credential that line is not the last one. *)
Theorem log_ends_with_exit_line_iff_clean {World : Type}
    (rt : runtime World) (env : gmap string str) (stdin : list str)
    (w : World) :
  debug_enabled env = true ->
  (main rt env stdin w).2 = Exit 0
  <-> last (log_writes (main rt env stdin w).1)
      = Some (py "=== Proxy exiting ===").
Proof.
  intros Hd. unfold main.
  destruct (py_int rt _) as [timeout|]; [|split; discriminate].
  destruct (env !! "MCP_API_KEY") as [key|]; [|split; discriminate].
  destruct (truthy key); [|split; discriminate].
  rewrite Hd. set (cfg := Config _ _ _ _ _).
  pose proof (bridge_loop_last_log rt cfg stdin eq_refl None w) as Hlast.
  pose proof (bridge_loop_end rt cfg stdin None w) as Hend.
  destruct (bridge_loop rt cfg None stdin w) as [evs st]. cbn [fst snd] in *.
  rewrite log_writes_app, last_app. destruct st as [c|c].
  - destruct Hend as [-> _]. rewrite Hlast. split; reflexivity.
  - destruct Hlast as [m ->]. split; discriminate.
Qed.

Lemma log_ends_with_exit_line_iff_clean_witness :
  let stdin := [pyq "{'id':1}" ++ [10%N]; py "17" ++ [10%N]] in
  let run := main Demo.rt Demo.env_with_debug stdin [] in
  run.2 = Traceback AttributeError
  /\ (run.2 = Exit 0
      <-> last (log_writes run.1) = Some (py "=== Proxy exiting ===")).
Proof.
  intros stdin run. split; [reflexivity|].
  apply (log_ends_with_exit_line_iff_clean Demo.rt Demo.env_with_debug
           stdin []).
  reflexivity.
Defined.
